(** * Session orchestrator of the WhatsApp backend

    A shallow embedding of [WhatsAppManager] (services/WhatsAppManager.ts),
    of the parts of [SupabaseService] it calls, and of the
    [POST /api/send-bulk] route (routes/index.ts).

    The manager is a record of everything the TypeScript class reads or
    writes: the [connections] map, the session directories on disk, the
    three store tables, the pending [setTimeout] callbacks, and a log of
    the calls made on sockets and on the socket.io server.  Every method
    and every event handler is a function on that record.  A handler runs
    from its first to its last statement without another one running in
    between; what the protocol engine, the QR renderer and the store answer
    is read from an environment [Env]. *)

From stdpp Require Import gmap strings list fin_maps pretty.
From Stdlib Require Import ZArith Ascii.

Local Open Scope Z_scope.

(** ** JavaScript helpers *)

(** Truthiness of a string ([if (s)]): the empty string is falsy. *)
Definition truthy (s : string) : bool :=
  match s with
  | EmptyString => false
  | String _ _ => true
  end.

(** Truthiness of an optional string: [undefined], [null] and [""] are falsy. *)
Definition truthy_opt (o : option string) : bool :=
  match o with
  | Some s => truthy s
  | None => false
  end.

(** [a || b] on optional strings. *)
Definition js_or (a b : option string) : option string :=
  if truthy_opt a then a else b.

(** [s.split('@')[0]]: the text before the first ['@']. *)
Fixpoint before_at (s : string) : string :=
  match s with
  | EmptyString => EmptyString
  | String c r => if Ascii.eqb c "@"%char then EmptyString else String c (before_at r)
  end.

(** [s.includes('@')]. *)
Fixpoint includes_at (s : string) : bool :=
  match s with
  | EmptyString => false
  | String c r => if Ascii.eqb c "@"%char then true else includes_at r
  end.

Definition is_digit (c : ascii) : bool :=
  let n := Ascii.nat_of_ascii c in
  (Nat.leb 48 n && Nat.leb n 57)%bool.

(** [s.replace(/\D/g, '')]. *)
Fixpoint digits_only (s : string) : string :=
  match s with
  | EmptyString => EmptyString
  | String c r => if is_digit c then String c (digits_only r) else digits_only r
  end.

(** ** Store records (SupabaseService.ts) *)

Inductive MessageType := inbound | outbound | automated.

Record WhatsAppMessage := {
  clinic_id : string;
  patient_id : option string;
  phone : string;
  message_type : MessageType;
  content : string;
  message_status : string;
  whatsapp_message_id : option string
}.

Record WhatsAppSession := {
  user_id : string;
  is_connected : bool;
  phone_number : option string
}.

Record Patient := {
  pt_id : option string;
  pt_clinic_id : string;
  pt_full_name : string;
  pt_phone : string;
  pt_status : string;
  pt_conversion_stage : string
}.

Record UserProfile := {
  pr_id : string;
  pr_user_id : string
}.

(** ** Protocol values (Baileys) *)

(** [AnyMessageContent] as [sendMessage] inspects it: a bare string, or an
    object of which only [text] and [caption] are read. *)
Inductive AnyMessageContent :=
| ContentString (s : string)
| ContentObject (text caption : option string).

Record MessageKey := {
  remoteJid : option string;
  fromMe : bool;
  key_id : option string
}.

(** [proto.IMessage]: the five fields [extractMessageContent] reads, and one
    payload it does not read ([audioMessage], by its url). *)
Record IMessage := {
  conversation : option string;
  extendedTextMessage : option (option string);
  imageMessage : option (option string);
  videoMessage : option (option string);
  documentMessage : option (option string);
  audioMessage : option string
}.

Record WAMessage := {
  key : MessageKey;
  message : option IMessage;
  pushName : option string;
  messageTimestamp : option Z
}.

(** One entry of a [messages.update] event: [key.id] and [update.status]
    (the numeric [proto.WebMessageInfo.Status]). *)
Record WAMessageUpdate := {
  upd_key_id : option string;
  upd_status : option Z
}.

Inductive WAConnectionState := conn_open | conn_connecting | conn_close.

(** A [connection.update] event: [connection], the status code of
    [lastDisconnect.error.output] and [qr]. *)
Record ConnectionState := {
  connection : option WAConnectionState;
  lastDisconnect_statusCode : option Z;
  cs_qr : option string
}.

(** [DisconnectReason.loggedOut]. *)
Definition loggedOut : Z := 401.

(** ** The manager *)

Record WhatsAppConnection := {
  socket : nat;
  qr : option string;
  isConnected : bool;
  userId : string;
  phoneNumber : option string
}.

(** Payloads of [io.to(room).emit(...)]. *)
Inductive Emit :=
| EmitQr (code : string)
| EmitConnectionStatus (connected : bool) (phone : option string)
| EmitNewMessage (from text name : string) (timestamp : option Z).

(** Calls on collaborators, in the order they are made. *)
Inductive Effect :=
| SocketCreated (user : string) (sock : nat)
| SocketEnd (sock : nat)
| SocketSendMessage (sock : nat) (jid : string) (c : AnyMessageContent)
| Sleep (ms : Z)
| IoEmit (room : string) (e : Emit).

Record Manager := {
  connections : gmap string WhatsAppConnection;
  (** entries of [sessionsPath]: [true] for a directory, [false] for a file *)
  sessionDirs : gmap string bool;
  (** [whatsapp_sessions], keyed by its unique column [user_id] *)
  whatsapp_sessions : gmap string WhatsAppSession;
  whatsapp_messages : list WhatsAppMessage;
  patients : list Patient;
  (** pending [setTimeout(() => connectUser(userId), ms)] callbacks *)
  timers : list (Z * string);
  (** the handlers [setupEventHandlers] attached: socket to closed-over [userId] *)
  handlers : gmap nat string;
  nextSocket : nat;
  effects : list Effect
}.

Definition set_connections (f : gmap string WhatsAppConnection → gmap string WhatsAppConnection)
    (st : Manager) : Manager :=
  {| connections := f (connections st); sessionDirs := sessionDirs st;
     whatsapp_sessions := whatsapp_sessions st; whatsapp_messages := whatsapp_messages st;
     patients := patients st; timers := timers st; handlers := handlers st;
     nextSocket := nextSocket st; effects := effects st |}.

Definition set_sessionDirs (f : gmap string bool → gmap string bool) (st : Manager) : Manager :=
  {| connections := connections st; sessionDirs := f (sessionDirs st);
     whatsapp_sessions := whatsapp_sessions st; whatsapp_messages := whatsapp_messages st;
     patients := patients st; timers := timers st; handlers := handlers st;
     nextSocket := nextSocket st; effects := effects st |}.

Definition set_whatsapp_sessions (f : gmap string WhatsAppSession → gmap string WhatsAppSession)
    (st : Manager) : Manager :=
  {| connections := connections st; sessionDirs := sessionDirs st;
     whatsapp_sessions := f (whatsapp_sessions st); whatsapp_messages := whatsapp_messages st;
     patients := patients st; timers := timers st; handlers := handlers st;
     nextSocket := nextSocket st; effects := effects st |}.

Definition set_whatsapp_messages (f : list WhatsAppMessage → list WhatsAppMessage)
    (st : Manager) : Manager :=
  {| connections := connections st; sessionDirs := sessionDirs st;
     whatsapp_sessions := whatsapp_sessions st; whatsapp_messages := f (whatsapp_messages st);
     patients := patients st; timers := timers st; handlers := handlers st;
     nextSocket := nextSocket st; effects := effects st |}.

Definition set_patients (f : list Patient → list Patient) (st : Manager) : Manager :=
  {| connections := connections st; sessionDirs := sessionDirs st;
     whatsapp_sessions := whatsapp_sessions st; whatsapp_messages := whatsapp_messages st;
     patients := f (patients st); timers := timers st; handlers := handlers st;
     nextSocket := nextSocket st; effects := effects st |}.

Definition set_timers (f : list (Z * string) → list (Z * string)) (st : Manager) : Manager :=
  {| connections := connections st; sessionDirs := sessionDirs st;
     whatsapp_sessions := whatsapp_sessions st; whatsapp_messages := whatsapp_messages st;
     patients := patients st; timers := f (timers st); handlers := handlers st;
     nextSocket := nextSocket st; effects := effects st |}.

Definition set_handlers (f : gmap nat string → gmap nat string) (st : Manager) : Manager :=
  {| connections := connections st; sessionDirs := sessionDirs st;
     whatsapp_sessions := whatsapp_sessions st; whatsapp_messages := whatsapp_messages st;
     patients := patients st; timers := timers st; handlers := f (handlers st);
     nextSocket := nextSocket st; effects := effects st |}.

Definition set_nextSocket (f : nat → nat) (st : Manager) : Manager :=
  {| connections := connections st; sessionDirs := sessionDirs st;
     whatsapp_sessions := whatsapp_sessions st; whatsapp_messages := whatsapp_messages st;
     patients := patients st; timers := timers st; handlers := handlers st;
     nextSocket := f (nextSocket st); effects := effects st |}.

(** Append one call to the log. *)
Definition do_effect (e : Effect) (st : Manager) : Manager :=
  {| connections := connections st; sessionDirs := sessionDirs st;
     whatsapp_sessions := whatsapp_sessions st; whatsapp_messages := whatsapp_messages st;
     patients := patients st; timers := timers st; handlers := handlers st;
     nextSocket := nextSocket st; effects := effects st ++ [e] |}.

(** What the collaborators answer.  [None] and [false] stand for a rejected
    promise or a store error. *)
Record Env := {
  (** [QRCode.toDataURL(qr)] *)
  toDataURL : string → option string;
  (** [useMultiFileAuthState(dir)] resolves for this tenant *)
  authState_ok : string → bool;
  (** [makeWASocket(...)] returns for this tenant *)
  makeWASocket_ok : string → bool;
  (** [socket.user?.id] at the time the socket reports [open] *)
  socket_user : nat → option string;
  (** [socket.sendMessage(jid, content)]: [None] throws, [Some id] is
      [sentMsg?.key.id] *)
  socket_sendMessage : nat → string → AnyMessageContent → option (option string);
  (** [supabase.getUserProfile(userId)], [null] on a miss or an error *)
  getUserProfile : string → option UserProfile;
  (** the insert of [saveMessage] is accepted *)
  insert_message_ok : WhatsAppMessage → bool;
  (** the update of [updateMessageStatus] is accepted *)
  update_message_ok : string → bool;
  (** the update of [updateSessionStatus] is accepted *)
  update_session_ok : string → bool;
  (** the select of [getSession] is answered *)
  select_session_ok : string → bool;
  (** the select and insert of [findOrCreatePatient] are answered *)
  patients_ok : string → bool;
  (** the id the store gives to the n-th patient row *)
  new_patient_id : nat → string
}.

Section Orchestrator.

Context (env : Env).

(** ** SupabaseService *)

(** [saveMessage]: inserts one row; a store error is rethrown ([None]). *)
Definition saveMessage (m : WhatsAppMessage) (st : Manager) : option Manager :=
  if insert_message_ok env m
  then Some (set_whatsapp_messages (λ rows, rows ++ [m]) st)
  else None.

Definition with_message_status (status : string) (m : WhatsAppMessage) : WhatsAppMessage :=
  {| clinic_id := clinic_id m; patient_id := patient_id m; phone := phone m;
     message_type := message_type m; content := content m;
     message_status := status; whatsapp_message_id := whatsapp_message_id m |}.

(** [updateMessageStatus]:
    [update({ message_status }).eq('whatsapp_message_id', messageId)]; a
    store error is logged and swallowed. *)
Definition updateMessageStatus (messageId status : string) (st : Manager) : Manager :=
  if update_message_ok env messageId
  then set_whatsapp_messages
         (map (λ m, if bool_decide (whatsapp_message_id m = Some messageId)
                    then with_message_status status m else m)) st
  else st.

(** [getSession]: the row of [user_id], [null] when there is none or on an error. *)
Definition getSession (user : string) (st : Manager) : option WhatsAppSession :=
  if select_session_ok env user then whatsapp_sessions st !! user else None.

(** [updateSessionStatus]: [update(...).eq('user_id', userId)];
    [phone_number] is written only for a truthy [phoneNumber]; a store error
    is logged and swallowed. *)
Definition updateSessionStatus (user : string) (connected : bool) (phoneNum : option string)
    (st : Manager) : Manager :=
  if update_session_ok env user
  then set_whatsapp_sessions
         (alter (λ s, {| user_id := user_id s; is_connected := connected;
                         phone_number := if truthy_opt phoneNum then phoneNum
                                         else phone_number s |}) user) st
  else st.

(** [findOrCreatePatient]: [.single()] answers PGRST116 unless exactly one
    row matches, and then a new patient is inserted; any other error gives
    [null]. *)
Definition findOrCreatePatient (phoneNum clinicId : string) (name : option string)
    (st : Manager) : Manager * option Patient :=
  let cleanPhone := digits_only phoneNum in
  if negb (patients_ok env cleanPhone) then (st, None) else
  match filter (λ p, pt_phone p = cleanPhone ∧ pt_clinic_id p = clinicId) (patients st) with
  | [p] => (st, Some p)
  | _ =>
    let newPatient :=
      {| pt_id := Some (new_patient_id env (length (patients st)));
         pt_clinic_id := clinicId;
         pt_full_name := if truthy_opt name then default "" name
                         else "WhatsApp " +:+ cleanPhone;
         pt_phone := cleanPhone; pt_status := "active";
         pt_conversion_stage := "lead" |} in
    (set_patients (λ rows, rows ++ [newPatient]) st, Some newPatient)
  end.

(** ** WhatsAppManager *)

Record ConnectResult := {
  cr_success : bool;
  cr_qr : option string;
  cr_message : option string
}.

Record SendResult := {
  success : bool;
  messageId : option string;
  error : option string
}.

Record ConnectionStatus := {
  connected : bool;
  st_phoneNumber : option string;
  st_qr : option string
}.

(** [clearUserSession]: removes the tenant's directory when it exists. *)
Definition clearUserSession (user : string) (st : Manager) : Manager :=
  match sessionDirs st !! user with
  | Some _ => set_sessionDirs (delete user) st
  | None => st
  end.

(** [useMultiFileAuthState(path.join(sessionsPath, userId))]: creates the
    directory when nothing is there, rejects when a file is. *)
Definition useMultiFileAuthState (user : string) (st : Manager) : option Manager :=
  if negb (authState_ok env user) then None else
  match sessionDirs st !! user with
  | Some true => Some st
  | Some false => None
  | None => Some (set_sessionDirs (<[user := true]>) st)
  end.

(** [setupEventHandlers]: the four listeners of the socket close over
    [userId]; they are [on_connection_update], [on_messages_upsert] and
    [on_messages_update] below ([creds.update] only writes inside the
    tenant's directory). *)
Definition setupEventHandlers (user : string) (sock : nat) (st : Manager) : Manager :=
  set_handlers (<[sock := user]>) st.

Definition connectUser (user : string) (st : Manager) : Manager * ConnectResult :=
  let already :=
    match connections st !! user with
    | Some conn => isConnected conn
    | None => false
    end in
  if already
  then (st, {| cr_success := true; cr_qr := None; cr_message := Some "Already connected" |})
  else
    let failed := {| cr_success := false; cr_qr := None; cr_message := Some "Failed to connect" |} in
    match useMultiFileAuthState user st with
    | None => (st, failed)
    | Some st1 =>
      if negb (makeWASocket_ok env user) then (st1, failed) else
      let sock := nextSocket st1 in
      let conn := {| socket := sock; qr := None; isConnected := false;
                     userId := user; phoneNumber := None |} in
      let st2 := do_effect (SocketCreated user sock) (set_nextSocket S st1) in
      let st3 := set_connections (<[user := conn]>) st2 in
      (setupEventHandlers user sock st3,
       {| cr_success := true; cr_qr := None; cr_message := Some "Connection initiated" |})
    end.

Definition room (user : string) : string := "user:" +:+ user.

Definition with_qr (code : option string) (c : WhatsAppConnection) : WhatsAppConnection :=
  {| socket := socket c; qr := code; isConnected := isConnected c;
     userId := userId c; phoneNumber := phoneNumber c |}.

Definition with_isConnected (b : bool) (c : WhatsAppConnection) : WhatsAppConnection :=
  {| socket := socket c; qr := qr c; isConnected := b;
     userId := userId c; phoneNumber := phoneNumber c |}.

Definition with_phoneNumber (p : option string) (c : WhatsAppConnection) : WhatsAppConnection :=
  {| socket := socket c; qr := qr c; isConnected := isConnected c;
     userId := userId c; phoneNumber := p |}.

(** The [if (qr)] branch of the [connection.update] listener. *)
Definition update_qr (user : string) (upd : ConnectionState) (st : Manager) : Manager :=
  match cs_qr upd with
  | Some raw =>
    if truthy raw then
      match toDataURL env raw with
      | Some qrCode =>
        do_effect (IoEmit (room user) (EmitQr qrCode))
          (set_connections (alter (with_qr (Some qrCode)) user) st)
      | None => st
      end
    else st
  | None => st
  end.

(** The [connection === 'close'] branch. *)
Definition update_close (user : string) (upd : ConnectionState) (st : Manager) : Manager :=
  let shouldReconnect := negb (bool_decide (lastDisconnect_statusCode upd = Some loggedOut)) in
  let st1 := set_connections (alter (with_isConnected false) user) st in
  let st2 := updateSessionStatus user false None st1 in
  let st3 := do_effect (IoEmit (room user) (EmitConnectionStatus false None)) st2 in
  if shouldReconnect
  then set_timers (λ ts, ts ++ [(5000, user)]) st3
  else clearUserSession user (set_connections (delete user) st3).

(** The [connection === 'open'] branch. *)
Definition update_open (user : string) (sock : nat) (st : Manager) : Manager :=
  let phoneNum := before_at <$> socket_user env sock in
  let st1 := set_connections
               (alter (λ c, with_qr None (with_phoneNumber phoneNum (with_isConnected true c)))
                      user) st in
  let st2 := updateSessionStatus user true phoneNum st1 in
  do_effect (IoEmit (room user) (EmitConnectionStatus true phoneNum)) st2.

(** The [connection.update] listener of socket [sock]. *)
Definition on_connection_update (sock : nat) (upd : ConnectionState) (st : Manager) : Manager :=
  match handlers st !! sock with
  | None => st
  | Some user =>
    let st1 := update_qr user upd st in
    match connection upd with
    | Some conn_close => update_close user upd st1
    | Some conn_open => update_open user sock st1
    | _ => st1
    end
  end.

Definition opt_field (o : option (option string)) : option string :=
  match o with
  | Some f => f
  | None => None
  end.

Definition extractMessageContent (m : WAMessage) : option string :=
  match message m with
  | None => None
  | Some msg =>
    if truthy_opt (conversation msg) then conversation msg
    else if truthy_opt (opt_field (extendedTextMessage msg)) then opt_field (extendedTextMessage msg)
    else if truthy_opt (opt_field (imageMessage msg)) then opt_field (imageMessage msg)
    else if truthy_opt (opt_field (videoMessage msg)) then opt_field (videoMessage msg)
    else if truthy_opt (opt_field (documentMessage msg)) then opt_field (documentMessage msg)
    else None
  end.

(** [handleIncomingMessage]; every exception inside is caught and logged. *)
Definition handleIncomingMessage (user : string) (m : WAMessage) (st : Manager) : Manager :=
  match message m with
  | None => st
  | Some _ =>
    if fromMe (key m) then st else
    match extractMessageContent m with
    | None => st
    | Some messageContent =>
      if negb (truthy messageContent) then st else
      match remoteJid (key m) with
      | None => st
      | Some from =>
        let phoneNum := before_at from in
        let name := if truthy_opt (pushName m) then default "" (pushName m) else phoneNum in
        match getUserProfile env user with
        | None => st
        | Some profile =>
          let '(st1, patient) := findOrCreatePatient phoneNum (pr_id profile) (Some name) st in
          match saveMessage {| clinic_id := pr_id profile;
                               patient_id := patient ≫= pt_id;
                               phone := phoneNum; message_type := inbound;
                               content := messageContent; message_status := "delivered";
                               whatsapp_message_id := key_id (key m) |} st1 with
          | None => st1
          | Some st2 =>
            do_effect (IoEmit (room user)
                         (EmitNewMessage phoneNum messageContent name (messageTimestamp m))) st2
          end
        end
      end
    end
  end.

(** The [messages.upsert] listener of socket [sock]. *)
Definition on_messages_upsert (sock : nat) (msgs : list WAMessage) (st : Manager) : Manager :=
  match handlers st !! sock with
  | None => st
  | Some user => foldl (λ acc m, handleIncomingMessage user m acc) st msgs
  end.

(** [if (msg.update?.status)]: a status of [0] is falsy. *)
Definition status_truthy (o : option Z) : bool :=
  match o with
  | Some z => negb (z =? 0)
  | None => false
  end.

(** One iteration of the [messages.update] listener. *)
Definition handleMessageUpdate (u : WAMessageUpdate) (st : Manager) : Manager :=
  if status_truthy (upd_status u) then
    match upd_key_id u with
    | Some id => updateMessageStatus id (pretty (default 0 (upd_status u))) st
    | None => st
    end
  else st.

(** The [messages.update] listener of socket [sock]. *)
Definition on_messages_update (sock : nat) (upds : list WAMessageUpdate) (st : Manager) : Manager :=
  match handlers st !! sock with
  | None => st
  | Some _ => foldl (λ acc u, handleMessageUpdate u acc) st upds
  end.

Definition messageText (c : AnyMessageContent) : string :=
  match c with
  | ContentString s => s
  | ContentObject text caption =>
    default "Media message" (js_or (js_or text caption) (Some "Media message"))
  end.

Definition sendMessage (user to : string) (c : AnyMessageContent) (st : Manager)
    : Manager * SendResult :=
  let notConnected :=
    {| success := false; messageId := None; error := Some "Not connected to WhatsApp" |} in
  let failed :=
    {| success := false; messageId := None; error := Some "Failed to send message" |} in
  match connections st !! user with
  | None => (st, notConnected)
  | Some conn =>
    if negb (isConnected conn) then (st, notConnected) else
    let jid := if includes_at to then to else to +:+ "@s.whatsapp.net" in
    let st1 := do_effect (SocketSendMessage (socket conn) jid c) st in
    match socket_sendMessage env (socket conn) jid c with
    | None => (st1, failed)
    | Some sentId =>
      let sent := {| success := true; messageId := sentId; error := None |} in
      match getUserProfile env user with
      | Some profile =>
        match saveMessage {| clinic_id := pr_id profile; patient_id := None;
                             phone := to; message_type := outbound;
                             content := messageText c; message_status := "sent";
                             whatsapp_message_id := sentId |} st1 with
        | Some st2 => (st2, sent)
        | None => (st1, failed)
        end
      | None => (st1, sent)
      end
    end
  end.

(** [disconnectUser].  [socket.end] and the file system calls do not throw
    here, so the [catch] that answers [success: false] is never entered. *)
Definition disconnectUser (user : string) (st : Manager) : Manager * bool :=
  let st1 :=
    match connections st !! user with
    | Some conn => set_connections (delete user) (do_effect (SocketEnd (socket conn)) st)
    | None => st
    end in
  let st2 := updateSessionStatus user false None st1 in
  (clearUserSession user st2, true).

Definition getConnectionStatus (user : string) (st : Manager) : ConnectionStatus :=
  match connections st !! user with
  | None => {| connected := false; st_phoneNumber := None; st_qr := None |}
  | Some conn =>
    {| connected := isConnected conn; st_phoneNumber := phoneNumber conn; st_qr := qr conn |}
  end.

(** The callback of [setTimeout(() => this.connectUser(userId), 5000)]: the
    [i]-th pending timer fires. *)
Definition on_timer (i : nat) (st : Manager) : Manager :=
  match timers st !! i with
  | Some (_, user) => (connectUser user (set_timers (delete i) st)).1
  | None => st
  end.

(** [fs.readdirSync(sessionsPath)]. *)
Definition readdirSync (st : Manager) : list string := (map_to_list (sessionDirs st)).*1.

(** The [for] loop of [restoreActiveSessions].  [statSync] on a missing
    entry throws, which leaves the loop for the enclosing [catch]. *)
Fixpoint restoreLoop (dirs : list string) (st : Manager) : Manager :=
  match dirs with
  | [] => st
  | user :: rest =>
    match sessionDirs st !! user with
    | None => st
    | Some false => restoreLoop rest st
    | Some true =>
      match getSession user st with
      | Some session =>
        if is_connected session
        then restoreLoop rest (connectUser user st).1
        else restoreLoop rest st
      | None => restoreLoop rest st
      end
    end
  end.

Definition restoreActiveSessions (st : Manager) : Manager := restoreLoop (readdirSync st) st.

(** ** POST /api/send-bulk (routes/index.ts) *)

Record BulkRequest := {
  (** [req.userId], set by [authMiddleware.authenticate] *)
  req_userId : option string;
  (** [recipients]: [None] when missing or not an array *)
  body_recipients : option (list string);
  body_message : option string;
  (** [delay]: [None] when absent, which selects the default *)
  body_delay : option Z
}.

Inductive BulkResponse :=
| BadRequest
| BulkOk (sent failed : nat) (results : list (string * SendResult)).

Fixpoint sendBulkLoop (user msg : string) (delayMs : Z) (recipients : list string)
    (results : list (string * SendResult)) (st : Manager)
    : Manager * list (string * SendResult) :=
  match recipients with
  | [] => (st, results)
  | recipient :: rest =>
    let '(st1, result) := sendMessage user recipient (ContentObject (Some msg) None) st in
    let st2 := if 0 <? delayMs then do_effect (Sleep delayMs) st1 else st1 in
    sendBulkLoop user msg delayMs rest (results ++ [(recipient, result)]) st2
  end.

Definition sendBulk (req : BulkRequest) (st : Manager) : Manager * BulkResponse :=
  let delayMs := default 1000 (body_delay req) in
  match req_userId req, body_recipients req, body_message req with
  | Some user, Some recipients, Some msg =>
    if (truthy user && truthy msg)%bool then
      let '(st1, results) := sendBulkLoop user msg delayMs recipients [] st in
      (st1, BulkOk (length (filter (λ r, success r.2 = true) results))
                   (length (filter (λ r, success r.2 = false) results)) results)
    else (st, BadRequest)
  | _, _, _ => (st, BadRequest)
  end.

(** ** Runs *)

(** What can happen to a manager: a public method is called, a socket raises
    an event, or a pending timer fires. *)
Inductive Event :=
| Connect (user : string)
| Disconnect (user : string)
| Send (user to : string) (c : AnyMessageContent)
| SendBulk (req : BulkRequest)
| ConnectionUpdate (sock : nat) (upd : ConnectionState)
| MessagesUpsert (sock : nat) (msgs : list WAMessage)
| MessagesUpdate (sock : nat) (upds : list WAMessageUpdate)
| TimerFires (i : nat).

Definition step (st : Manager) (e : Event) : Manager :=
  match e with
  | Connect user => (connectUser user st).1
  | Disconnect user => (disconnectUser user st).1
  | Send user to c => (sendMessage user to c st).1
  | SendBulk req => (sendBulk req st).1
  | ConnectionUpdate sock upd => on_connection_update sock upd st
  | MessagesUpsert sock msgs => on_messages_upsert sock msgs st
  | MessagesUpdate sock upds => on_messages_update sock upds st
  | TimerFires i => on_timer i st
  end.

Definition run (es : list Event) (st : Manager) : Manager := foldl step st es.

End Orchestrator.

(** A manager as its constructor leaves it: no connection, no timer, no
    socket; the disk and the store are whatever they were. *)
Definition new_manager (dirs : gmap string bool) (sessions : gmap string WhatsAppSession)
    (msgs : list WhatsAppMessage) (pts : list Patient) : Manager :=
  {| connections := ∅; sessionDirs := dirs; whatsapp_sessions := sessions;
     whatsapp_messages := msgs; patients := pts; timers := []; handlers := ∅;
     nextSocket := 0; effects := [] |}.

(** An environment in which every collaborator answers. *)
Definition env_ok : Env :=
  {| toDataURL := λ raw, Some ("data:image/png;base64," +:+ raw);
     authState_ok := λ _, true;
     makeWASocket_ok := λ _, true;
     socket_user := λ sock, Some ("5511" +:+ pretty sock +:+ ":1@s.whatsapp.net");
     socket_sendMessage := λ _ jid _, Some (Some ("MSG-" +:+ jid));
     getUserProfile := λ user, Some {| pr_id := "clinic-" +:+ user; pr_user_id := user |};
     insert_message_ok := λ _, true;
     update_message_ok := λ _, true;
     update_session_ok := λ _, true;
     select_session_ok := λ _, true;
     patients_ok := λ _, true;
     new_patient_id := λ n, "patient-" +:+ pretty n |}.

(** ** Scenarios *)

(** A manager started on an empty disk and an empty store. *)
Definition boot : Manager := new_manager ∅ ∅ [] [].

Definition qr_update (raw : string) : ConnectionState :=
  {| connection := None; lastDisconnect_statusCode := None; cs_qr := Some raw |}.

Definition open_update : ConnectionState :=
  {| connection := Some conn_open; lastDisconnect_statusCode := None; cs_qr := None |}.

Definition close_update (code : option Z) : ConnectionState :=
  {| connection := Some conn_close; lastDisconnect_statusCode := code; cs_qr := None |}.

(** Tenant u1 asked to connect and its socket has shown a pairing code. *)
Definition pairing_u1 : Manager :=
  run env_ok [Connect "u1"; ConnectionUpdate 0 (qr_update "2@abc")] boot.

(** Tenant u1 is connected on socket 0. *)
Definition connected_u1 : Manager :=
  run env_ok [Connect "u1"; ConnectionUpdate 0 open_update] boot.

(** Tenant u1 lost its connection (428, connection closed) and a
    reconnection is pending. *)
Definition dropped_u1 : Manager :=
  run env_ok [Connect "u1"; ConnectionUpdate 0 open_update;
              ConnectionUpdate 0 (close_update (Some 428))] boot.

(** The address [sendMessage] hands to the socket for a destination. *)
Definition jidOf (to : string) : string :=
  if includes_at to then to else to +:+ "@s.whatsapp.net".

(** The socket calls one single-send of a text makes: one [sendMessage] on
    the tenant's socket when the tenant is connected, none otherwise. *)
Definition send_calls (user msg : string) (st : Manager) (recipient : string) : list Effect :=
  match connections st !! user with
  | Some conn =>
    if isConnected conn
    then [SocketSendMessage (socket conn) (jidOf recipient) (ContentObject (Some msg) None)]
    else []
  | None => []
  end.

(** The wait after one send of a bulk request. *)
Definition pause (delayMs : Z) : list Effect :=
  if 0 <? delayMs then [Sleep delayMs] else [].

(** [env_ok], except that the engine rejects every send to 222. *)
Definition env_222_fails : Env :=
  {| toDataURL := toDataURL env_ok;
     authState_ok := authState_ok env_ok;
     makeWASocket_ok := makeWASocket_ok env_ok;
     socket_user := socket_user env_ok;
     socket_sendMessage := λ sock jid c,
       if bool_decide (jid = "222@s.whatsapp.net") then None
       else socket_sendMessage env_ok sock jid c;
     getUserProfile := getUserProfile env_ok;
     insert_message_ok := insert_message_ok env_ok;
     update_message_ok := update_message_ok env_ok;
     update_session_ok := update_session_ok env_ok;
     select_session_ok := select_session_ok env_ok;
     patients_ok := patients_ok env_ok;
     new_patient_id := new_patient_id env_ok |}.

Definition bulk_request (delayMs : option Z) : BulkRequest :=
  {| req_userId := Some "u1"; body_recipients := Some ["111"; "222"];
     body_message := Some "hi"; body_delay := delayMs |}.

(** [env_ok], except that no user profile resolves. *)
Definition env_no_profile : Env :=
  {| toDataURL := toDataURL env_ok;
     authState_ok := authState_ok env_ok;
     makeWASocket_ok := makeWASocket_ok env_ok;
     socket_user := socket_user env_ok;
     socket_sendMessage := socket_sendMessage env_ok;
     getUserProfile := λ _, None;
     insert_message_ok := insert_message_ok env_ok;
     update_message_ok := update_message_ok env_ok;
     update_session_ok := update_session_ok env_ok;
     select_session_ok := select_session_ok env_ok;
     patients_ok := patients_ok env_ok;
     new_patient_id := new_patient_id env_ok |}.

(** The Message Record [sendMessage] writes for a send that answered [sentId]. *)
Definition outbound_record (profile : UserProfile) (to : string) (c : AnyMessageContent)
    (sentId : option string) : WhatsAppMessage :=
  {| clinic_id := pr_id profile; patient_id := None; phone := to;
     message_type := outbound; content := messageText c; message_status := "sent";
     whatsapp_message_id := sentId |}.




(** A text as tenant u2 receives it from 55110, carrying the id the engine
    gave it when it was sent. *)
Definition text_from_u1 : WAMessage :=
  {| key := {| remoteJid := Some "55110@s.whatsapp.net"; fromMe := false;
               key_id := Some "MSG-55111@s.whatsapp.net" |};
     message := Some {| conversation := Some "hello"; extendedTextMessage := None;
                        imageMessage := None; videoMessage := None;
                        documentMessage := None; audioMessage := None |};
     pushName := Some "Clinic one"; messageTimestamp := Some 1700000000 |}.

(** Tenants u1 (socket 0, number 55110) and u2 (socket 1, number 55111) are
    both connected; u1 has sent "hello" to u2 and u2 has received it. *)
Definition two_tenants : Manager :=
  run env_ok [Connect "u1"; ConnectionUpdate 0 open_update;
              Connect "u2"; ConnectionUpdate 1 open_update;
              Send "u1" "55111" (ContentObject (Some "hello") None);
              MessagesUpsert 1 [text_from_u1]] boot.

(** The engine reports the message of [two_tenants] as delivered
    (status 3) on the socket of u1. *)
Definition delivery_ack : WAMessageUpdate :=
  {| upd_key_id := Some "MSG-55111@s.whatsapp.net"; upd_status := Some 3 |}.

(** The test of the restore loop on one entry of [sessionsPath]: it is a
    directory and the session row of that tenant reads connected. *)
Definition restorable (env : Env) (st : Manager) (user : string) : bool :=
  match sessionDirs st !! user, getSession env user st with
  | Some true, Some session => is_connected session
  | _, _ => false
  end.

(** [env_ok], except that the auth state of tenant c cannot be loaded. *)
Definition env_c_fails : Env :=
  {| toDataURL := toDataURL env_ok;
     authState_ok := λ user, negb (bool_decide (user = "c"));
     makeWASocket_ok := makeWASocket_ok env_ok;
     socket_user := socket_user env_ok;
     socket_sendMessage := socket_sendMessage env_ok;
     getUserProfile := getUserProfile env_ok;
     insert_message_ok := insert_message_ok env_ok;
     update_message_ok := update_message_ok env_ok;
     update_session_ok := update_session_ok env_ok;
     select_session_ok := select_session_ok env_ok;
     patients_ok := patients_ok env_ok;
     new_patient_id := new_patient_id env_ok |}.

(** A restart: directories of tenants a, b and c and a stray file; the
    store says a and c were connected, b was not.  [readdirSync] lists them
    as c, a, notes.txt, b. *)
Definition restart : Manager :=
  new_manager
    {[ "a" := true; "b" := true; "c" := true; "notes.txt" := false ]}
    {[ "a" := {| user_id := "a"; is_connected := true; phone_number := Some "5511" |};
       "b" := {| user_id := "b"; is_connected := false; phone_number := None |};
       "c" := {| user_id := "c"; is_connected := true; phone_number := Some "5513" |} ]}
    [] [].

(** The disk entries and session rows of [st0] read the same in [st]. *)
Definition agree (st0 st : Manager) : Prop :=
  whatsapp_sessions st = whatsapp_sessions st0 ∧
  ∀ u, is_Some (sessionDirs st0 !! u) → sessionDirs st !! u = sessionDirs st0 !! u.

(** The pairing code and the identity of a session are not both present. *)
Definition exclusive (c : WhatsAppConnection) : Prop :=
  ¬ (is_Some (qr c) ∧ is_Some (phoneNumber c)).

Definition registry_exclusive (st : Manager) : Prop :=
  ∀ user c, connections st !! user = Some c → exclusive c.

(** The update brings a pairing code and does not report [open] (an [open]
    update clears the code it brought). *)
Definition brings_qr (upd : ConnectionState) : bool :=
  match connection upd with
  | Some conn_open => false
  | _ => truthy_opt (cs_qr upd)
  end.

(** The event is one the engine raises in order: a pairing code comes only
    for a tenant whose session has no identity yet.  Nothing in the listener
    checks this. *)
Definition qr_expected (st : Manager) (e : Event) : bool :=
  match e with
  | ConnectionUpdate sock upd =>
    if brings_qr upd then
      match handlers st !! sock with
      | Some user =>
        match connections st !! user with
        | Some c => bool_decide (phoneNumber c = None)
        | None => true
        end
      | None => true
      end
    else true
  | _ => true
  end.

Fixpoint qr_expected_run (env : Env) (es : list Event) (st : Manager) : bool :=
  match es with
  | [] => true
  | e :: rest => (qr_expected st e && qr_expected_run env rest (step env st e))%bool
  end.

(** Tenant u1 asks to connect twice while pairing, so sockets 0 and 1 both
    carry its listeners; the code of socket 0 is scanned, and socket 1 then
    shows its next pairing code. *)
Definition double_pairing : list Event :=
  [Connect "u1"; Connect "u1"; ConnectionUpdate 0 open_update;
   ConnectionUpdate 1 (qr_update "2@def")].

(** Tenant u1 pairs, connects, drops, is reconnected by the timer and pairs
    again on the new socket. *)
Definition pair_drop_pair : list Event :=
  [Connect "u1"; ConnectionUpdate 0 (qr_update "2@abc"); ConnectionUpdate 0 open_update;
   ConnectionUpdate 0 (close_update (Some 428)); TimerFires 0;
   ConnectionUpdate 1 (qr_update "2@def")].

(** ** Routes on the manager (routes/index.ts) *)

(** An express answer: [res.status(400).json({ error })] or [res.json(body)]. *)
Inductive HttpResponse (A : Type) :=
| Http400 (err : string)
| Http200 (body : A).

Arguments Http400 {A} err.
Arguments Http200 {A} body.

(** [POST /api/connect]; [userId] is [req.body.userId]. *)
Definition route_connect (env : Env) (bodyUserId : option string) (st : Manager)
    : Manager * HttpResponse ConnectResult :=
  match bodyUserId with
  | Some user =>
    if truthy user
    then let '(st1, result) := connectUser env user st in (st1, Http200 result)
    else (st, Http400 "User ID required")
  | None => (st, Http400 "User ID required")
  end.

(** [POST /api/disconnect]. *)
Definition route_disconnect (env : Env) (bodyUserId : option string) (st : Manager)
    : Manager * HttpResponse bool :=
  match bodyUserId with
  | Some user =>
    if truthy user
    then let '(st1, result) := disconnectUser env user st in (st1, Http200 result)
    else (st, Http400 "User ID required")
  | None => (st, Http400 "User ID required")
  end.

(** [GET /api/status/:userId]. *)
Definition route_status (paramUserId : string) (st : Manager) : HttpResponse ConnectionStatus :=
  if truthy paramUserId
  then Http200 (getConnectionStatus paramUserId st)
  else Http400 "User ID required".

(** One entry of the list [GET /api/connections] answers. *)
Record ConnectionSummary := {
  sum_userId : string;
  sum_connected : bool;
  sum_phoneNumber : option string
}.

(** [getAllConnections] and the body of [GET /api/connections] behind its
    admin check: [total] and the list of all sessions.  The entries come in
    the order [map_to_list] gives, not in insertion order. *)
Definition route_connections (st : Manager) : nat * list ConnectionSummary :=
  let connectionList :=
    (λ entry, {| sum_userId := entry.1; sum_connected := isConnected entry.2;
                 sum_phoneNumber := phoneNumber entry.2 |})
      <$> map_to_list (connections st) in
  (length connectionList, connectionList).

(** ** Reading runs *)


(** The registry is keyed by the tenant of each session, every session's
    socket carries the listeners of that tenant, and the socket ids in use
    are below the next one to be given out. *)
Definition registry_wf (st : Manager) : Prop :=
  (∀ user c, connections st !! user = Some c →
             userId c = user ∧ handlers st !! socket c = Some user) ∧
  (∀ sock user, handlers st !! sock = Some user → (sock < nextSocket st)%nat).

(** A text from 5533 with the given key id. *)
Definition text_message (id : option string) (text : string) : WAMessage :=
  {| key := {| remoteJid := Some "5533@s.whatsapp.net"; fromMe := false; key_id := id |};
     message := Some {| conversation := Some text; extendedTextMessage := None;
                        imageMessage := None; videoMessage := None;
                        documentMessage := None; audioMessage := None |};
     pushName := Some "Ana"; messageTimestamp := Some 1700000000 |}.

(** [env_ok], except that the store rejects every message insert. *)
Definition env_no_insert : Env :=
  {| toDataURL := toDataURL env_ok;
     authState_ok := authState_ok env_ok;
     makeWASocket_ok := makeWASocket_ok env_ok;
     socket_user := socket_user env_ok;
     socket_sendMessage := socket_sendMessage env_ok;
     getUserProfile := getUserProfile env_ok;
     insert_message_ok := λ _, false;
     update_message_ok := update_message_ok env_ok;
     update_session_ok := update_session_ok env_ok;
     select_session_ok := select_session_ok env_ok;
     patients_ok := patients_ok env_ok;
     new_patient_id := new_patient_id env_ok |}.

(** [env_ok], except that the QR renderer rejects. *)
Definition env_no_qr : Env :=
  {| toDataURL := λ _, None;
     authState_ok := authState_ok env_ok;
     makeWASocket_ok := makeWASocket_ok env_ok;
     socket_user := socket_user env_ok;
     socket_sendMessage := socket_sendMessage env_ok;
     getUserProfile := getUserProfile env_ok;
     insert_message_ok := insert_message_ok env_ok;
     update_message_ok := update_message_ok env_ok;
     update_session_ok := update_session_ok env_ok;
     select_session_ok := select_session_ok env_ok;
     patients_ok := patients_ok env_ok;
     new_patient_id := new_patient_id env_ok |}.

(** Tenant u1 is connected and the store holds its session row. *)
Definition connected_with_row : Manager :=
  run env_ok [Connect "u1"; ConnectionUpdate 0 open_update]
    (new_manager ∅
       {[ "u1" := {| user_id := "u1"; is_connected := false; phone_number := None |} ]}
       [] []).


(** Everything of the manager but the message and patient tables and the
    log of calls. *)
Definition session_part (st : Manager)
    : gmap string WhatsAppConnection * gmap string bool * gmap string WhatsAppSession *
      gmap nat string * nat * list (Z * string) :=
  (connections st, sessionDirs st, whatsapp_sessions st, handlers st, nextSocket st, timers st).

(** Message traffic: single and bulk sends, and the two message listeners. *)
Definition message_traffic (e : Event) : bool :=
  match e with
  | Send _ _ _ | SendBulk _ | MessagesUpsert _ _ | MessagesUpdate _ _ => true
  | _ => false
  end.

(** From [st] to [st'] no listener and no socket id was added, and every
    session of [st'] is a session of [st] on the same socket for the same
    tenant. *)
Definition keeps_sockets (st st' : Manager) : Prop :=
  handlers st' = handlers st ∧ nextSocket st' = nextSocket st ∧
  ∀ user c', connections st' !! user = Some c' →
    ∃ c, connections st !! user = Some c ∧ socket c' = socket c ∧ userId c' = userId c.

(** From [rows] to [rows'] nothing was removed, and every record that was
    there is still at its place with at most another status. *)
Definition grows (rows rows' : list WhatsAppMessage) : Prop :=
  ∀ i m, rows !! i = Some m → ∃ status, rows' !! i = Some (with_message_status status m).

(** ** AuthMiddleware (auth/authMiddleware.ts) *)

(** [s.split(' ')]: the pieces between single spaces, empty pieces included. *)
Fixpoint split_space (s : string) : list string :=
  match s with
  | EmptyString => [EmptyString]
  | String c r =>
    if Ascii.eqb c " "%char then EmptyString :: split_space r
    else
      match split_space r with
      | part :: parts => String c part :: parts
      | [] => [String c EmptyString]
      end
  end.

Fixpoint has_space (s : string) : bool :=
  match s with
  | EmptyString => false
  | String c r => if Ascii.eqb c " "%char then true else has_space r
  end.

(** What the middleware reads of a request. *)
Record AuthRequest := {
  hdr_authorization : option string;
  (** [req.cookies && req.cookies['sb-access-token']] *)
  cookie_access_token : option string;
  (** [req.query.token] when it is a string *)
  query_token : option string;
  req_ip : option string;
  hdr_forwarded_for : option string
}.

Definition extractToken (req : AuthRequest) : option string :=
  let fromHeader :=
    match hdr_authorization req with
    | Some authHeader =>
      if truthy authHeader then
        match split_space authHeader with
        | [scheme; token] => if bool_decide (scheme = "Bearer") then Some token else None
        | _ => None
        end
      else None
    | None => None
    end in
  match fromHeader with
  | Some token => Some token
  | None =>
    if truthy_opt (cookie_access_token req) then cookie_access_token req
    else if truthy_opt (query_token req) then query_token req
    else None
  end.

(** An entry of [rateLimitStore]. *)
Record RateLimit := {
  rl_count : nat;
  rl_resetTime : Z
}.

Definition maxRequestsPerMinute : nat := 60.

(** [req.ip || req.headers['x-forwarded-for'] || 'unknown']. *)
Definition rate_identifier (req : AuthRequest) : string :=
  default "unknown" (js_or (js_or (req_ip req) (hdr_forwarded_for req)) (Some "unknown")).

(** [checkRateLimit]; [now] is [Date.now()]. *)
Definition checkRateLimit (now : Z) (req : AuthRequest) (store : gmap string RateLimit)
    : gmap string RateLimit * bool :=
  let identifier := rate_identifier req in
  let fresh := {| rl_count := 1; rl_resetTime := now + 60 * 1000 |} in
  match store !! identifier with
  | None => (<[identifier := fresh]> store, true)
  | Some limit =>
    if rl_resetTime limit <? now then (<[identifier := fresh]> store, true)
    else if (maxRequestsPerMinute <=? rl_count limit)%nat then (store, false)
    else (<[identifier := {| rl_count := S (rl_count limit);
                             rl_resetTime := rl_resetTime limit |}]> store, true)
  end.

(** The Supabase user, of which the middleware reads [id]. *)
Record AuthUser := {
  au_id : string
}.

(** An entry of [sessionCache]. *)
Record CachedSession := {
  cached_user : AuthUser;
  expiresAt : Z
}.

(** [supabase.auth.getUser(token)]: it throws, it answers an error or no
    user (with the error's [message], if any), or it answers a user. *)
Inductive GetUser :=
| GetUserThrows
| GetUserFails (message : option string)
| GetUserOk (user : AuthUser).

(** What the collaborators of the middleware answer. *)
Record AuthEnv := {
  supabase_getUser : string → GetUser;
  (** [jwt.decode(token).exp], [None] when there is none *)
  jwt_exp : string → option Z;
  (** the [role] of the profile of a user id, [None] on an error or a miss *)
  profile_role : string → option string;
  (** [supabase.auth.signOut()] resolves *)
  signOut_ok : bool
}.

(** The answer of [validateToken]: [valid] with the user and the session's
    [access_token], or not valid with [error] and [code]. *)
Inductive TokenResult :=
| TokenValid (user : AuthUser) (access_token : string)
| TokenInvalid (err code : string).

(** [validateToken]; [now] is [Date.now()], read once. *)
Definition validateToken (aenv : AuthEnv) (now : Z) (token : string)
    (cache : gmap string CachedSession) : gmap string CachedSession * TokenResult :=
  let hit :=
    match cache !! token with
    | Some cached => if now <? expiresAt cached then Some cached else None
    | None => None
    end in
  match hit with
  | Some cached => (cache, TokenValid (cached_user cached) token)
  | None =>
    match supabase_getUser aenv token with
    | GetUserThrows => (cache, TokenInvalid "Token validation failed" "VALIDATION_ERROR")
    | GetUserFails message =>
      let expired :=
        match jwt_exp aenv token with
        | Some exp => (negb (exp =? 0) && (exp * 1000 <? now))%bool
        | None => false
        end in
      if expired then (cache, TokenInvalid "Token expired" "TOKEN_EXPIRED")
      else (cache, TokenInvalid (default "Invalid token" (js_or message (Some "Invalid token")))
                                "INVALID_TOKEN")
    | GetUserOk user =>
      (<[token := {| cached_user := user; expiresAt := now + 5 * 60 * 1000 |}]> cache,
       TokenValid user token)
    end
  end.

(** The two module-level maps of the middleware. *)
Record AuthState := {
  rateLimitStore : gmap string RateLimit;
  sessionCache : gmap string CachedSession
}.

(** How a middleware ends: with a response, or by calling [next()] with the
    user attached to the request. *)
Inductive AuthOutcome :=
| AuthRejected (status : nat) (err code : string)
| AuthPassed (uid : string) (user : AuthUser) (access_token : string).

Definition authenticate (aenv : AuthEnv) (now : Z) (req : AuthRequest) (s : AuthState)
    : AuthState * AuthOutcome :=
  let missing := AuthRejected 401 "Authentication required" "MISSING_TOKEN" in
  match extractToken req with
  | None => (s, missing)
  | Some token =>
    if negb (truthy token) then (s, missing) else
    let '(store, allowed) := checkRateLimit now req (rateLimitStore s) in
    if negb allowed
    then ({| rateLimitStore := store; sessionCache := sessionCache s |},
          AuthRejected 429 "Too many requests" "RATE_LIMIT_EXCEEDED")
    else
      let '(cache, result) := validateToken aenv now token (sessionCache s) in
      ({| rateLimitStore := store; sessionCache := cache |},
       match result with
       | TokenValid user access => AuthPassed (au_id user) user access
       | TokenInvalid err code =>
         AuthRejected 401 (if truthy err then err else "Invalid token")
                          (if truthy code then code else "INVALID_TOKEN")
       end)
  end.

(** [requireAdmin]: [authenticate], then the role of the profile. *)
Definition requireAdmin (aenv : AuthEnv) (now : Z) (req : AuthRequest) (s : AuthState)
    : AuthState * AuthOutcome :=
  match authenticate aenv now req s with
  | (s1, AuthPassed uid user access) =>
    if bool_decide (profile_role aenv uid = Some "admin")
    then (s1, AuthPassed uid user access)
    else (s1, AuthRejected 403 "Admin access required" "INSUFFICIENT_PERMISSIONS")
  | rejected => rejected
  end.

(** [clearExpiredSessions]: drops the entries with [expiresAt < now]. *)
Definition clearExpiredSessions (now : Z) (cache : gmap string CachedSession)
    : gmap string CachedSession :=
  filter (λ entry, ¬ (expiresAt entry.2 < now)) cache.

(** [logout]: forgets the token of the request, then signs out; the answer
    is [true] for [{ success: true }] and [false] for the 500. *)
Definition logout (aenv : AuthEnv) (req : AuthRequest) (s : AuthState) : AuthState * bool :=
  match extractToken req with
  | Some token =>
    if truthy token
    then ({| rateLimitStore := rateLimitStore s;
             sessionCache := delete token (sessionCache s) |}, signOut_ok aenv)
    else (s, true)
  | None => (s, true)
  end.

(** The answers of [checkRateLimit] to requests made at the given times. *)
Fixpoint rate_answers (times : list Z) (req : AuthRequest) (store : gmap string RateLimit)
    : list bool :=
  match times with
  | [] => []
  | now :: rest =>
    let '(store1, allowed) := checkRateLimit now req store in
    allowed :: rate_answers rest req store1
  end.

(** A request with only a bearer header. *)
Definition bearer_request (header : string) : AuthRequest :=
  {| hdr_authorization := Some header; cookie_access_token := None;
     query_token := None; req_ip := Some "10.0.0.1"; hdr_forwarded_for := None |}.

(** Supabase knows one token, "good", of user "u1", who is no admin. *)
Definition aenv_one_user : AuthEnv :=
  {| supabase_getUser := λ token,
       if bool_decide (token = "good") then GetUserOk {| au_id := "u1" |}
       else GetUserFails (Some "invalid JWT");
     jwt_exp := λ _, None;
     profile_role := λ _, Some "user";
     signOut_ok := true |}.

(** Supabase rejects every token. *)
Definition aenv_revoked : AuthEnv :=
  {| supabase_getUser := λ _, GetUserFails None;
     jwt_exp := λ _, None;
     profile_role := λ _, None;
     signOut_ok := true |}.

Definition auth_start : AuthState := {| rateLimitStore := ∅; sessionCache := ∅ |}.

(** ** Metrics (monitoring/logger.ts) *)

(** The double quote character. *)
Definition dquote : string := String (Ascii.ascii_of_nat 34) EmptyString.

(** [buildKey]: the name alone without labels, else the name followed by
    the labels as [k="v"], comma-separated, in braces. *)
Definition buildKey (name : string) (labels : option (list (string * string))) : string :=
  match labels with
  | None => name
  | Some entries =>
    name +:+ "{" +:+
    String.concat "," (map (λ kv, kv.1 +:+ "=" +:+ dquote +:+ kv.2 +:+ dquote) entries) +:+ "}"
  end.

(** [recordHistogram] on the [histograms] map: the value is pushed and only
    the last 1000 values are kept. *)
Definition recordHistogram (name : string) (value : Z) (labels : option (list (string * string)))
    (histograms : gmap string (list Z)) : gmap string (list Z) :=
  let key := buildKey name labels in
  let values := default [] (histograms !! key) ++ [value] in
  let kept :=
    if (1000 <? length values)%nat then drop (length values - 1000) values else values in
  <[key := kept]> histograms.

(** * Properties *)

(** ** Frame lemmas: what each operation leaves alone *)

Section Frames.

Context (env : Env).

Lemma updateSessionStatus_frame user b p st :
  connections (updateSessionStatus env user b p st) = connections st ∧
  sessionDirs (updateSessionStatus env user b p st) = sessionDirs st ∧
  whatsapp_messages (updateSessionStatus env user b p st) = whatsapp_messages st ∧
  timers (updateSessionStatus env user b p st) = timers st ∧
  handlers (updateSessionStatus env user b p st) = handlers st ∧
  nextSocket (updateSessionStatus env user b p st) = nextSocket st ∧
  effects (updateSessionStatus env user b p st) = effects st.
Proof. unfold updateSessionStatus. by destruct (update_session_ok env user). Qed.

Lemma clearUserSession_frame user st :
  connections (clearUserSession user st) = connections st ∧
  whatsapp_sessions (clearUserSession user st) = whatsapp_sessions st ∧
  whatsapp_messages (clearUserSession user st) = whatsapp_messages st ∧
  timers (clearUserSession user st) = timers st ∧
  handlers (clearUserSession user st) = handlers st ∧
  nextSocket (clearUserSession user st) = nextSocket st ∧
  effects (clearUserSession user st) = effects st.
Proof. unfold clearUserSession. by destruct (sessionDirs st !! user). Qed.

Lemma clearUserSession_gone user st : sessionDirs (clearUserSession user st) !! user = None.
Proof.
  unfold clearUserSession. destruct (sessionDirs st !! user) eqn:E; simpl; [|done].
  apply lookup_delete_eq.
Qed.


Lemma update_qr_frame user upd st :
  sessionDirs (update_qr env user upd st) = sessionDirs st ∧
  whatsapp_sessions (update_qr env user upd st) = whatsapp_sessions st ∧
  whatsapp_messages (update_qr env user upd st) = whatsapp_messages st ∧
  timers (update_qr env user upd st) = timers st ∧
  handlers (update_qr env user upd st) = handlers st ∧
  nextSocket (update_qr env user upd st) = nextSocket st.
Proof.
  unfold update_qr. destruct (cs_qr upd) as [raw|]; [|done].
  destruct (truthy raw); [|done]. by destruct (toDataURL env raw).
Qed.

(** After a disconnect the tenant has no session, no directory, and the
    pending timers are the ones there were. *)
Lemma disconnectUser_shape user st :
  (disconnectUser env user st).2 = true ∧
  connections (disconnectUser env user st).1 !! user = None ∧
  sessionDirs (disconnectUser env user st).1 !! user = None ∧
  timers (disconnectUser env user st).1 = timers st ∧
  effects (disconnectUser env user st).1 =
    effects st ++ match connections st !! user with
                  | Some conn => [SocketEnd (socket conn)]
                  | None => []
                  end.
Proof.
  unfold disconnectUser. cbn [fst snd].
  set (st1 := match connections st !! user with Some _ => _ | None => _ end).
  destruct (clearUserSession_frame user (updateSessionStatus env user false None st1))
    as (Hc & _ & _ & Ht & _ & _ & He).
  destruct (updateSessionStatus_frame user false None st1) as (Hc' & _ & _ & Ht' & _ & _ & He').
  rewrite Hc, Ht, He, Hc', Ht', He'. split; [done|].
  split; [|split; [apply clearUserSession_gone|]].
  - subst st1. destruct (connections st !! user) eqn:E; simpl; [apply lookup_delete_eq|done].
  - subst st1. destruct (connections st !! user); simpl; [done|]. split; [done|].
    by rewrite app_nil_r.
Qed.

End Frames.

(** ** Connect *)

(** C1, as the code has it: for every tenant T, [connectUser T] called while
    the registry holds a session of T that is connected answers success with
    "Already connected", builds no socket and leaves the whole manager as it
    was. *)
Theorem connectUser_connected_unchanged env user conn st :
  connections st !! user = Some conn →
  isConnected conn = true →
  connectUser env user st =
    (st, {| cr_success := true; cr_qr := None; cr_message := Some "Already connected" |}).
Proof.
  intros Hconn Hup. unfold connectUser. by rewrite Hconn, Hup.
Qed.

Lemma connectUser_connected_unchanged_witness :
  connectUser env_ok "u1" connected_u1 =
    (connected_u1,
     {| cr_success := true; cr_qr := None; cr_message := Some "Already connected" |}).
Proof.
  eapply (connectUser_connected_unchanged env_ok "u1" _ connected_u1);
    vm_compute; reflexivity.
Defined.

(** A session that is not connected, one in the middle of pairing included,
    is replaced: a new socket is created and stored under the tenant. *)
Lemma connectUser_not_connected_rebuilds env user conn st :
  connections st !! user = Some conn →
  isConnected conn = false →
  authState_ok env user = true →
  makeWASocket_ok env user = true →
  sessionDirs st !! user ≠ Some false →
  let st' := (connectUser env user st).1 in
  effects st' = effects st ++ [SocketCreated user (nextSocket st)] ∧
  connections st' !! user =
    Some {| socket := nextSocket st; qr := None; isConnected := false;
            userId := user; phoneNumber := None |}.
Proof.
  intros Hconn Hdown Hauth Hsock Hdir. unfold connectUser, useMultiFileAuthState.
  rewrite Hconn, Hdown, Hauth. simpl.
  destruct (sessionDirs st !! user) as [[|]|] eqn:E; try done;
    rewrite Hsock; simpl; by rewrite lookup_insert_eq.
Qed.

(** C1, counterexample: u1 is in the middle of pairing (a session with a
    stored pairing code, not connected); a second [connectUser] answers
    success but creates socket 1 and stores it in place of socket 0. *)
Lemma connectUser_pairing_replaces_socket :
  (∃ conn, connections pairing_u1 !! "u1" = Some conn ∧ socket conn = 0%nat ∧
           isConnected conn = false ∧ is_Some (qr conn)) ∧
  cr_success (connectUser env_ok "u1" pairing_u1).2 = true ∧
  effects (connectUser env_ok "u1" pairing_u1).1 =
    effects pairing_u1 ++ [SocketCreated "u1" 1] ∧
  socket <$> connections (connectUser env_ok "u1" pairing_u1).1 !! "u1" = Some 1%nat ∧
  (connectUser env_ok "u1" pairing_u1).1 ≠ pairing_u1.
Proof.
  split.
  { exists {| socket := 0; qr := Some "data:image/png;base64,2@abc"; isConnected := false;
              userId := "u1"; phoneNumber := None |}.
    split; [vm_compute; reflexivity|]. split; [done|]. split; [done|]. by eexists. }
  split; [vm_compute; reflexivity|]. split; [vm_compute; reflexivity|].
  split; [vm_compute; reflexivity|].
  intros Heq. apply (f_equal nextSocket) in Heq. vm_compute in Heq. discriminate.
Qed.

(** ** Connection closed *)

(** C2: when a socket of tenant T reports [close] with the logged-out code,
    no timer is added, T leaves the registry, T's directory is removed and
    the status of T reads not connected; with any other code, or none, one
    timer of 5000 ms for T is added. *)
Theorem close_event_policy env sock user upd st :
  handlers st !! sock = Some user →
  connection upd = Some conn_close →
  let st' := on_connection_update env sock upd st in
  (lastDisconnect_statusCode upd = Some loggedOut →
     timers st' = timers st ∧
     connections st' !! user = None ∧
     sessionDirs st' !! user = None ∧
     connected (getConnectionStatus user st') = false) ∧
  (lastDisconnect_statusCode upd ≠ Some loggedOut →
     timers st' = timers st ++ [(5000, user)]).
Proof.
  intros Hh Hclose st'. subst st'. unfold on_connection_update. rewrite Hh, Hclose.
  destruct (update_qr_frame env user upd st) as (_ & _ & _ & Ht & _ & _).
  set (st1 := update_qr env user upd st) in *.
  unfold update_close.
  set (st2 := set_connections (alter (with_isConnected false) user) st1).
  destruct (updateSessionStatus_frame env user false None st2) as (_ & _ & _ & Ht2 & _ & _ & _).
  split.
  - intros Hcode. rewrite Hcode, bool_decide_eq_true_2 by done. cbn [negb].
    destruct (clearUserSession_frame user
                (set_connections (delete user)
                   (do_effect (IoEmit (room user) (EmitConnectionStatus false None))
                      (updateSessionStatus env user false None st2))))
      as (Hc & _ & _ & Ht3 & _ & _ & _).
    assert (Hgone : connections
              (clearUserSession user
                 (set_connections (delete user)
                    (do_effect (IoEmit (room user) (EmitConnectionStatus false None))
                       (updateSessionStatus env user false None st2)))) !! user = None).
    { rewrite Hc. simpl. apply lookup_delete_eq. }
    split; [by rewrite Ht3; simpl; rewrite Ht2|].
    split; [done|]. split; [apply clearUserSession_gone|].
    unfold getConnectionStatus. by rewrite Hgone.
  - intros Hcode. rewrite bool_decide_eq_false_2 by done.
    cbn [negb]. unfold set_timers, do_effect. cbn [timers]. rewrite Ht2.
    subst st2. unfold set_connections. cbn [timers]. by rewrite Ht.
Qed.

Lemma close_event_policy_witness :
  (timers (on_connection_update env_ok 0 (close_update (Some loggedOut)) connected_u1) =
     timers connected_u1 ∧
   connections (on_connection_update env_ok 0 (close_update (Some loggedOut)) connected_u1)
     !! "u1" = None ∧
   sessionDirs (on_connection_update env_ok 0 (close_update (Some loggedOut)) connected_u1)
     !! "u1" = None ∧
   connected (getConnectionStatus "u1"
     (on_connection_update env_ok 0 (close_update (Some loggedOut)) connected_u1)) = false) ∧
  timers (on_connection_update env_ok 0 (close_update (Some 428)) connected_u1) =
    timers connected_u1 ++ [(5000, "u1")].
Proof.
  split.
  - apply (close_event_policy env_ok 0%nat "u1" (close_update (Some loggedOut)) connected_u1);
      vm_compute; reflexivity.
  - apply (close_event_policy env_ok 0%nat "u1" (close_update (Some 428)) connected_u1);
      [vm_compute; reflexivity | reflexivity | vm_compute; discriminate].
Defined.

(** ** Disconnect *)

(** C3, as the code has it: [disconnectUser T] on a tenant with a session
    ends that session's socket, removes the session from the registry,
    removes T's directory, answers success, and neither adds nor removes a
    pending timer. *)
Theorem disconnectUser_teardown env user conn st :
  connections st !! user = Some conn →
  let st' := (disconnectUser env user st).1 in
  (disconnectUser env user st).2 = true ∧
  effects st' = effects st ++ [SocketEnd (socket conn)] ∧
  connections st' !! user = None ∧
  sessionDirs st' !! user = None ∧
  timers st' = timers st.
Proof.
  intros Hconn st'. subst st'.
  destruct (disconnectUser_shape env user st) as (Hok & Hc & Hd & Ht & He).
  rewrite Hconn in He. done.
Qed.

Lemma disconnectUser_teardown_witness :
  (disconnectUser env_ok "u1" dropped_u1).2 = true ∧
  effects (disconnectUser env_ok "u1" dropped_u1).1 = effects dropped_u1 ++ [SocketEnd 0] ∧
  connections (disconnectUser env_ok "u1" dropped_u1).1 !! "u1" = None ∧
  sessionDirs (disconnectUser env_ok "u1" dropped_u1).1 !! "u1" = None ∧
  timers (disconnectUser env_ok "u1" dropped_u1).1 = timers dropped_u1.
Proof.
  apply (disconnectUser_teardown env_ok "u1"
           {| socket := 0; qr := None; isConnected := false; userId := "u1";
              phoneNumber := Some "55110:1" |} dropped_u1).
  vm_compute; reflexivity.
Defined.

(** C3, counterexample: u1 has a reconnection pending when it is
    disconnected.  The timer is still pending afterwards, and when it fires
    u1 gets a new socket and is back in the registry.  Likewise the [close]
    event that the ended socket of a connected u1 raises (no status code)
    adds a timer for u1 after the disconnect. *)
Lemma disconnectUser_keeps_reconnect_timer :
  timers (disconnectUser env_ok "u1" dropped_u1).1 = [(5000, "u1")] ∧
  connections (disconnectUser env_ok "u1" dropped_u1).1 !! "u1" = None ∧
  effects (on_timer env_ok 0 (disconnectUser env_ok "u1" dropped_u1).1) =
    effects (disconnectUser env_ok "u1" dropped_u1).1 ++ [SocketCreated "u1" 1] ∧
  is_Some (connections (on_timer env_ok 0 (disconnectUser env_ok "u1" dropped_u1).1) !! "u1") ∧
  timers (disconnectUser env_ok "u1" connected_u1).1 = [] ∧
  timers (on_connection_update env_ok 0 (close_update None)
            (disconnectUser env_ok "u1" connected_u1).1) = [(5000, "u1")].
Proof.
  split; [vm_compute; reflexivity|]. split; [vm_compute; reflexivity|].
  split; [vm_compute; reflexivity|].
  split; [|split; vm_compute; reflexivity].
  exists {| socket := 1; qr := None; isConnected := false; userId := "u1";
            phoneNumber := None |}.
  vm_compute; reflexivity.
Qed.



(** ** Sending *)

Section Sending.

Context (env : Env).

Lemma saveMessage_frame m st st' :
  saveMessage env m st = Some st' →
  connections st' = connections st ∧ effects st' = effects st ∧
  whatsapp_messages st' = whatsapp_messages st ++ [m].
Proof. unfold saveMessage. destruct (insert_message_ok env m); [|done]. by intros [= <-]. Qed.

(** A single send leaves the registry alone and logs exactly [send_calls]. *)
Lemma sendMessage_frame user to msg st :
  connections (sendMessage env user to (ContentObject (Some msg) None) st).1 = connections st ∧
  effects (sendMessage env user to (ContentObject (Some msg) None) st).1 =
    effects st ++ send_calls user msg st to.
Proof.
  unfold sendMessage, send_calls, jidOf.
  destruct (connections st !! user) as [conn|]; simpl; [|by rewrite app_nil_r].
  destruct (isConnected conn); simpl; [|by rewrite app_nil_r].
  destruct (socket_sendMessage env _ _ _); simpl; [|done].
  destruct (getUserProfile env user); simpl; [|done].
  match goal with |- context [saveMessage env ?m ?s] =>
    destruct (saveMessage env m s) eqn:E end; simpl; [|done].
  apply saveMessage_frame in E as (-> & -> & _). done.
Qed.

(** What a single send answers depends on the registry and on the
    collaborators only. *)
Lemma sendMessage_result_registry user to c st1 st2 :
  connections st1 = connections st2 →
  (sendMessage env user to c st1).2 = (sendMessage env user to c st2).2.
Proof.
  intros Heq. unfold sendMessage. rewrite Heq.
  destruct (connections st2 !! user) as [conn|]; [|done].
  destruct (isConnected conn); simpl; [|done].
  destruct (socket_sendMessage env _ _ _); simpl; [|done].
  destruct (getUserProfile env user); simpl; [|done].
  unfold saveMessage. by destruct (insert_message_ok env _).
Qed.

Lemma send_calls_registry user msg st1 st2 recipient :
  connections st1 = connections st2 →
  send_calls user msg st1 recipient = send_calls user msg st2 recipient.
Proof. intros Heq. unfold send_calls. by rewrite Heq. Qed.

Lemma sendBulkLoop_spec user msg delayMs recipients :
  ∀ results st0 st,
    connections st = connections st0 →
    (sendBulkLoop env user msg delayMs recipients results st).2 =
      results ++ map (λ r, (r, (sendMessage env user r (ContentObject (Some msg) None) st0).2))
                     recipients ∧
    effects (sendBulkLoop env user msg delayMs recipients results st).1 =
      effects st ++ flat_map (λ r, send_calls user msg st0 r ++ pause delayMs) recipients.
Proof.
  induction recipients as [|r rest IH]; intros results st0 st Hreg; simpl.
  - by rewrite !app_nil_r.
  - destruct (sendMessage env user r (ContentObject (Some msg) None) st) as [st1 result] eqn:E.
    destruct (sendMessage_frame user r msg st) as (Hc & He). rewrite E in Hc, He. simpl in Hc, He.
    assert (Hres : result = (sendMessage env user r (ContentObject (Some msg) None) st0).2).
    { rewrite <- (sendMessage_result_registry user r _ st st0 Hreg). by rewrite E. }
    set (st2 := if 0 <? delayMs then do_effect (Sleep delayMs) st1 else st1).
    assert (Hc2 : connections st2 = connections st0).
    { subst st2. destruct (0 <? delayMs); simpl; congruence. }
    assert (He2 : effects st2 = effects st ++ send_calls user msg st0 r ++ pause delayMs).
    { subst st2. unfold pause. rewrite <- (send_calls_registry user msg st st0 r Hreg).
      destruct (0 <? delayMs); simpl; rewrite He; [by rewrite <- app_assoc|by rewrite app_nil_r]. }
    destruct (IH (results ++ [(r, result)]) st0 st2 Hc2) as (IHr & IHe).
    rewrite IHr, IHe, He2, Hres. split; by rewrite <- !app_assoc.
Qed.

Lemma sent_plus_failed (results : list (string * SendResult)) :
  (length (filter (λ r, success r.2 = true) results) +
   length (filter (λ r, success r.2 = false) results))%nat = length results.
Proof.
  induction results as [|[r res] rest IH]; [done|].
  rewrite !filter_cons. simpl. destruct (success res); simpl in *; lia.
Qed.

End Sending.

(** C4: a bulk request that passes validation makes, destination by
    destination and in the order of the list, one single-send followed by
    the wait of the requested delay (1000 ms when none is given); it answers
    one result per destination, each being what [sendMessage] answers for
    that destination whatever the earlier ones answered, and the two counts
    add up to the number of destinations. *)
Theorem sendBulk_sequential env req user recipients msg st :
  req_userId req = Some user → truthy user = true →
  body_recipients req = Some recipients →
  body_message req = Some msg → truthy msg = true →
  let delayMs := default 1000 (body_delay req) in
  let results :=
    map (λ r, (r, (sendMessage env user r (ContentObject (Some msg) None) st).2)) recipients in
  let sent := length (filter (λ r, success r.2 = true) results) in
  let failed := length (filter (λ r, success r.2 = false) results) in
  (sendBulk env req st).2 = BulkOk sent failed results ∧
  results.*1 = recipients ∧
  (sent + failed)%nat = length recipients ∧
  effects (sendBulk env req st).1 =
    effects st ++ flat_map (λ r, send_calls user msg st r ++ pause delayMs) recipients.
Proof.
  intros Hu Hut Hr Hm Hmt delayMs results sent failed.
  unfold sendBulk. rewrite Hu, Hr, Hm, Hut, Hmt. cbn [andb].
  destruct (sendBulkLoop_spec env user msg delayMs recipients [] st st eq_refl) as (Hres & Heff).
  fold delayMs.
  destruct (sendBulkLoop env user msg delayMs recipients [] st) as [st1 rs] eqn:E.
  simpl in Hres, Heff. subst rs. cbn [fst snd].
  split; [done|]. split.
  - subst results. clear. induction recipients as [|r rest IH]; [done|].
    cbn. by f_equal.
  - split; [|done]. subst sent failed. rewrite sent_plus_failed.
    subst results. by rewrite length_map.
Qed.

Lemma sendBulk_sequential_witness :
  (sendBulk env_222_fails (bulk_request (Some 0)) connected_u1).2 =
    BulkOk 1 1
      [("111", {| success := true; messageId := Some "MSG-111@s.whatsapp.net"; error := None |});
       ("222", {| success := false; messageId := None;
                  error := Some "Failed to send message" |})] ∧
  effects (sendBulk env_222_fails (bulk_request None) connected_u1).1 =
    effects connected_u1 ++
      [SocketSendMessage 0 "111@s.whatsapp.net" (ContentObject (Some "hi") None); Sleep 1000;
       SocketSendMessage 0 "222@s.whatsapp.net" (ContentObject (Some "hi") None); Sleep 1000].
Proof.
  split.
  - destruct (sendBulk_sequential env_222_fails (bulk_request (Some 0)) "u1" ["111"; "222"] "hi"
                connected_u1 eq_refl eq_refl eq_refl eq_refl eq_refl) as (H & _).
    etrans; [exact H|]. vm_compute; reflexivity.
  - destruct (sendBulk_sequential env_222_fails (bulk_request None) "u1" ["111"; "222"] "hi"
                connected_u1 eq_refl eq_refl eq_refl eq_refl eq_refl) as (_ & _ & _ & H).
    etrans; [exact H|]. vm_compute; reflexivity.
Defined.

(** C8, as the code has it: whenever [sendMessage] answers success, the
    tenant had a connected session, [sendMessage] was called on that
    session's socket with the full address, the answer carries the id the
    socket gave, and the store gained one outbound/sent record with that id
    when the tenant's profile resolves, and nothing when it does not. *)
Theorem sendMessage_success env user to c st :
  success (sendMessage env user to c st).2 = true →
  ∃ conn sentId,
    connections st !! user = Some conn ∧ isConnected conn = true ∧
    socket_sendMessage env (socket conn) (jidOf to) c = Some sentId ∧
    effects (sendMessage env user to c st).1 =
      effects st ++ [SocketSendMessage (socket conn) (jidOf to) c] ∧
    messageId (sendMessage env user to c st).2 = sentId ∧
    whatsapp_messages (sendMessage env user to c st).1 =
      whatsapp_messages st ++
        match getUserProfile env user with
        | Some profile => [outbound_record profile to c sentId]
        | None => []
        end.
Proof.
  unfold sendMessage, jidOf, outbound_record.
  destruct (connections st !! user) as [conn|]; [|done].
  destruct (isConnected conn) eqn:Hup; simpl; [|done].
  destruct (socket_sendMessage env _ _ _) as [sentId|] eqn:Hsend; simpl; [|done].
  destruct (getUserProfile env user) as [profile|]; simpl.
  - match goal with |- context [saveMessage env ?m ?s] =>
      destruct (saveMessage env m s) as [st2|] eqn:E end; simpl; [|done].
    intros _. exists conn, sentId. apply saveMessage_frame in E as (_ & He & Hm).
    by rewrite He, Hm.
  - intros _. exists conn, sentId. by rewrite app_nil_r.
Qed.

Lemma sendMessage_success_witness :
  ∃ conn sentId,
    connections connected_u1 !! "u1" = Some conn ∧ isConnected conn = true ∧
    socket_sendMessage env_ok (socket conn) (jidOf "111") (ContentString "hi") = Some sentId ∧
    effects (sendMessage env_ok "u1" "111" (ContentString "hi") connected_u1).1 =
      effects connected_u1 ++ [SocketSendMessage (socket conn) (jidOf "111") (ContentString "hi")] ∧
    messageId (sendMessage env_ok "u1" "111" (ContentString "hi") connected_u1).2 = sentId ∧
    whatsapp_messages (sendMessage env_ok "u1" "111" (ContentString "hi") connected_u1).1 =
      whatsapp_messages connected_u1 ++
        match getUserProfile env_ok "u1" with
        | Some profile => [outbound_record profile "111" (ContentString "hi") sentId]
        | None => []
        end.
Proof.
  apply (sendMessage_success env_ok "u1" "111" (ContentString "hi") connected_u1).
  vm_compute; reflexivity.
Defined.

(** C8, counterexample: u1 is connected and the socket accepts the send,
    but the profile of u1 does not resolve: the send answers success with
    the id and the store has no record of it. *)
Lemma sendMessage_no_profile_no_record :
  isConnected <$> connections connected_u1 !! "u1" = Some true ∧
  (sendMessage env_no_profile "u1" "111" (ContentObject (Some "hi") None) connected_u1).2 =
    {| success := true; messageId := Some "MSG-111@s.whatsapp.net"; error := None |} ∧
  whatsapp_messages
    (sendMessage env_no_profile "u1" "111" (ContentObject (Some "hi") None) connected_u1).1 = [].
Proof. repeat split; vm_compute; reflexivity. Qed.

(** ** Inbound messages *)





(** ** Delivery status *)

Lemma lookup_map {A B} (f : A → B) (l : list A) i : map f l !! i = f <$> l !! i.
Proof. revert i. induction l as [|x l IH]; intros [|i]; simpl; auto. Qed.

Lemma map_unchanged {A} (f : A → A) (l : list A) :
  (∀ x, x ∈ l → f x = x) → map f l = l.
Proof.
  induction l as [|x l IH]; intros Hf; simpl; [done|].
  rewrite Hf by (apply elem_of_cons; by left). f_equal. apply IH.
  intros y Hy. apply Hf. apply elem_of_cons. by right.
Qed.

(** C7, as the code has it: for an entry of a [messages.update] event with
    a message id and a truthy (non-zero) status that the store accepts,
    every record whose [whatsapp_message_id] is that id gets the status (its
    code in decimal), every other record stays as it was, and when no record
    has that id the table is unchanged. *)
Theorem status_update_by_id env sock user u id st :
  handlers st !! sock = Some user →
  upd_key_id u = Some id →
  status_truthy (upd_status u) = true →
  update_message_ok env id = true →
  let status := pretty (default 0 (upd_status u)) in
  let rows := whatsapp_messages st in
  let rows' := whatsapp_messages (on_messages_update env sock [u] st) in
  length rows' = length rows ∧
  (∀ i m, rows !! i = Some m → whatsapp_message_id m = Some id →
          rows' !! i = Some (with_message_status status m)) ∧
  (∀ i m, rows !! i = Some m → whatsapp_message_id m ≠ Some id → rows' !! i = Some m) ∧
  ((∀ m, m ∈ rows → whatsapp_message_id m ≠ Some id) → rows' = rows).
Proof.
  intros Hh Hid Hst Hok status rows rows'. subst rows'.
  unfold on_messages_update. rewrite Hh. simpl.
  unfold handleMessageUpdate. rewrite Hst, Hid. unfold updateMessageStatus. rewrite Hok.
  simpl. fold rows. fold status. split; [apply length_map|].
  split; [|split].
  - intros i m Hi Hm. rewrite lookup_map, Hi. simpl. by rewrite bool_decide_eq_true_2.
  - intros i m Hi Hm. rewrite lookup_map, Hi. simpl. by rewrite bool_decide_eq_false_2.
  - intros Hnone. apply map_unchanged. intros m Hin.
    rewrite bool_decide_eq_false_2; [done|]. by apply Hnone.
Qed.

Lemma status_update_by_id_witness :
  whatsapp_messages (on_messages_update env_ok 0 [delivery_ack] two_tenants) !! 0%nat =
    Some {| clinic_id := "clinic-u1"; patient_id := None; phone := "55111";
            message_type := outbound; content := "hello"; message_status := "3";
            whatsapp_message_id := Some "MSG-55111@s.whatsapp.net" |}.
Proof.
  destruct (status_update_by_id env_ok 0%nat "u1" delivery_ack "MSG-55111@s.whatsapp.net"
              two_tenants) as (_ & Hhit & _); [vm_compute; reflexivity ..|].
  apply (Hhit 0%nat
           {| clinic_id := "clinic-u1"; patient_id := None; phone := "55111";
              message_type := outbound; content := "hello"; message_status := "sent";
              whatsapp_message_id := Some "MSG-55111@s.whatsapp.net" |});
    vm_compute; reflexivity.
Defined.

(** C7, counterexample: u1 sent a message to u2, both tenants of this
    manager, so the store holds two records with the id of that message: the
    outbound one of u1 and the inbound one of u2.  The delivery report on the
    socket of u1 changes both. *)
Lemma status_update_changes_two_records :
  whatsapp_message_id <$> whatsapp_messages two_tenants =
    [Some "MSG-55111@s.whatsapp.net"; Some "MSG-55111@s.whatsapp.net"] ∧
  clinic_id <$> whatsapp_messages two_tenants = ["clinic-u1"; "clinic-u2"] ∧
  message_status <$> whatsapp_messages two_tenants = ["sent"; "delivered"] ∧
  message_status <$> whatsapp_messages (on_messages_update env_ok 0 [delivery_ack] two_tenants) =
    ["3"; "3"].
Proof. repeat split; vm_compute; reflexivity. Qed.

(** An entry whose status is [0] (falsy), or that has no status, is skipped. *)
Lemma status_update_falsy_skipped env u st :
  status_truthy (upd_status u) = false → handleMessageUpdate env u st = st.
Proof. intros Hf. unfold handleMessageUpdate. by rewrite Hf. Qed.

(** ** Restore at start-up *)

Section Restore.

Context (env : Env).

(** What [connectUser] can do to the manager. *)
Lemma connectUser_frame user st :
  whatsapp_sessions (connectUser env user st).1 = whatsapp_sessions st ∧
  (∀ u, is_Some (sessionDirs st !! u) →
        sessionDirs (connectUser env user st).1 !! u = sessionDirs st !! u) ∧
  (∀ u, u ≠ user → connections (connectUser env user st).1 !! u = connections st !! u) ∧
  (connections (connectUser env user st).1 = connections st ∨
   connections (connectUser env user st).1 =
     <[user := {| socket := nextSocket st; qr := None; isConnected := false;
                  userId := user; phoneNumber := None |}]> (connections st)).
Proof.
  unfold connectUser, useMultiFileAuthState.
  destruct (match connections st !! user with Some c => isConnected c | None => false end);
    [by auto|].
  destruct (authState_ok env user); simpl; [|by auto].
  destruct (sessionDirs st !! user) as [[|]|] eqn:E; simpl; [|by auto|].
  - destruct (makeWASocket_ok env user); simpl; [|by auto].
    split; [done|]. split; [done|]. split; [|by right].
    intros u Hne. by rewrite lookup_insert_ne.
  - assert (Hdirs : ∀ u, is_Some (sessionDirs st !! u) →
                         <[user:=true]> (sessionDirs st) !! u = sessionDirs st !! u).
    { intros u [b Hb]. rewrite lookup_insert_ne; [done|]. intros <-. congruence. }
    destruct (makeWASocket_ok env user); simpl; [|by auto].
    split; [done|]. split; [done|]. split; [|by right].
    intros u Hne. by rewrite lookup_insert_ne.
Qed.

Lemma connectUser_keeps user u st :
  is_Some (connections st !! u) → is_Some (connections (connectUser env user st).1 !! u).
Proof.
  intros Hu. destruct (connectUser_frame user st) as (_ & _ & _ & [-> | ->]); [done|].
  destruct (decide (user = u)) as [<-|Hne]; [by rewrite lookup_insert_eq|].
  by rewrite lookup_insert_ne.
Qed.

Lemma connectUser_registers user st :
  authState_ok env user = true → makeWASocket_ok env user = true →
  sessionDirs st !! user = Some true →
  is_Some (connections (connectUser env user st).1 !! user).
Proof.
  intros Hauth Hsock Hdir. unfold connectUser, useMultiFileAuthState.
  destruct (connections st !! user) as [conn|] eqn:E.
  - destruct (isConnected conn); simpl; [by rewrite E|].
    rewrite Hauth, Hdir, Hsock. simpl. by rewrite lookup_insert_eq.
  - rewrite Hauth, Hdir, Hsock. simpl. by rewrite lookup_insert_eq.
Qed.

Lemma agree_connectUser st0 st user :
  agree st0 st → agree st0 (connectUser env user st).1.
Proof.
  intros [Hs Hd]. destruct (connectUser_frame user st) as (Hs' & Hd' & _).
  split; [congruence|]. intros u Hu. rewrite Hd'; [by apply Hd|].
  rewrite Hd by done. done.
Qed.

Lemma agree_restorable st0 st u :
  agree st0 st → is_Some (sessionDirs st0 !! u) → restorable env st u = restorable env st0 u.
Proof.
  intros [Hs Hd] Hu. unfold restorable, getSession. by rewrite Hd, Hs.
Qed.

Lemma restoreLoop_fold st0 dirs :
  ∀ st, agree st0 st → (∀ u, u ∈ dirs → is_Some (sessionDirs st0 !! u)) →
    restoreLoop env dirs st =
      foldl (λ acc u, (connectUser env u acc).1) st
            (filter (λ u, restorable env st0 u = true) dirs).
Proof.
  induction dirs as [|u rest IH]; intros st Hag Hdirs; [done|].
  assert (Hu : is_Some (sessionDirs st0 !! u)) by (apply Hdirs, elem_of_cons; by left).
  assert (Hrest : ∀ v, v ∈ rest → is_Some (sessionDirs st0 !! v)).
  { intros v Hv. apply Hdirs, elem_of_cons. by right. }
  rewrite filter_cons. rewrite <- (agree_restorable st0 st u Hag Hu).
  pose proof Hag as [_ Hd]. specialize (Hd u Hu). destruct Hu as [b Hb].
  rewrite Hb in Hd. cbn [restoreLoop].
  destruct (restorable env st u) eqn:Hr; unfold restorable in Hr; rewrite Hd in *.
  - rewrite decide_True by done. destruct b; [|done].
    destruct (getSession env u st) as [session|]; [|done]. rewrite Hr. simpl.
    apply IH; [|done]. by apply agree_connectUser.
  - rewrite decide_False by done. destruct b; [|by apply IH].
    destruct (getSession env u st) as [session|]; [|by apply IH]. rewrite Hr.
    by apply IH.
Qed.

Lemma restore_fold_spec st0 chosen :
  ∀ st, agree st0 st → (∀ u, u ∈ chosen → sessionDirs st0 !! u = Some true) →
    let st' := foldl (λ acc u, (connectUser env u acc).1) st chosen in
    (∀ u, u ∉ chosen → connections st' !! u = connections st !! u) ∧
    (∀ u, is_Some (connections st !! u) → is_Some (connections st' !! u)) ∧
    (∀ u, u ∈ chosen → authState_ok env u = true → makeWASocket_ok env u = true →
          is_Some (connections st' !! u)).
Proof.
  induction chosen as [|x rest IH]; intros st Hag Hdirs; simpl.
  { split; [done|]. split; [done|]. intros u Hu. by apply elem_of_nil in Hu. }
  destruct (IH (connectUser env x st).1) as (Hout & Hkeep & Hin).
  { by apply agree_connectUser. }
  { intros u Hu. apply Hdirs, elem_of_cons. by right. }
  split; [|split].
  - intros u Hu. apply not_elem_of_cons in Hu as [Hne Hu]. rewrite Hout by done.
    destruct (connectUser_frame x st) as (_ & _ & Hother & _). by apply Hother.
  - intros u Hu. by apply Hkeep, connectUser_keeps.
  - intros u Hu Hauth Hsock. apply elem_of_cons in Hu as [->|Hu]; [|by apply Hin].
    apply Hkeep, connectUser_registers; [done..|].
    destruct Hag as [_ Hd]. rewrite Hd; [|rewrite Hdirs; [done|apply elem_of_cons; by left]].
    apply Hdirs, elem_of_cons. by left.
Qed.

End Restore.

(** C9: [restoreActiveSessions] calls [connectUser], one after the other
    and whatever the earlier calls answered, for exactly the listed entries
    that are directories and whose session row reads connected.  A tenant
    that is not one of them keeps the registry entry it had (none, at
    start-up); one of them for which the engine answers has a session
    afterwards, whether or not the connection of another tenant failed. *)
Theorem restoreActiveSessions_only_connected env st :
  let chosen := filter (λ u, restorable env st u = true) (readdirSync st) in
  let st' := restoreActiveSessions env st in
  st' = foldl (λ acc u, (connectUser env u acc).1) st chosen ∧
  (∀ u, restorable env st u = false → connections st' !! u = connections st !! u) ∧
  (∀ u, restorable env st u = true →
        authState_ok env u = true → makeWASocket_ok env u = true →
        is_Some (connections st' !! u)).
Proof.
  intros chosen st'.
  assert (Hlisted : ∀ u, u ∈ readdirSync st → is_Some (sessionDirs st !! u)).
  { intros u Hu. unfold readdirSync in Hu. apply list_elem_of_fmap in Hu as ([k b] & -> & Hkb).
    apply elem_of_map_to_list in Hkb. by eexists. }
  assert (Hag : agree st st) by (by split).
  assert (Heq : st' = foldl (λ acc u, (connectUser env u acc).1) st chosen).
  { subst st' chosen. unfold restoreActiveSessions. by apply restoreLoop_fold. }
  assert (Hchosen : ∀ u, u ∈ chosen ↔ restorable env st u = true).
  { intros u. subst chosen. rewrite list_elem_of_filter. split; [by intros [? _]|].
    intros Hr. split; [done|]. unfold readdirSync. apply list_elem_of_fmap.
    unfold restorable in Hr. destruct (sessionDirs st !! u) as [b|] eqn:E; [|done].
    exists (u, b). split; [done|]. by apply elem_of_map_to_list. }
  destruct (restore_fold_spec env st chosen st Hag) as (Hout & _ & Hin).
  { intros u Hu. apply Hchosen in Hu. unfold restorable in Hu.
    by destruct (sessionDirs st !! u) as [[|]|]. }
  split; [done|]. rewrite Heq. split.
  - intros u Hr. apply Hout. rewrite Hchosen. congruence.
  - intros u Hr. apply Hin. by apply Hchosen.
Qed.

Lemma restoreActiveSessions_only_connected_witness :
  restorable env_c_fails restart "c" = true ∧
  connections (restoreActiveSessions env_c_fails restart) !! "c" = None ∧
  connections (restoreActiveSessions env_c_fails restart) !! "b" = None ∧
  is_Some (connections (restoreActiveSessions env_c_fails restart) !! "a") ∧
  effects (restoreActiveSessions env_c_fails restart) = [SocketCreated "a" 0].
Proof.
  destruct (restoreActiveSessions_only_connected env_c_fails restart) as (Heq & Hout & Hin).
  split; [vm_compute; reflexivity|]. split; [vm_compute; reflexivity|].
  split; [rewrite (Hout "b"); vm_compute; reflexivity|].
  split; [apply (Hin "a"); vm_compute; reflexivity|].
  rewrite Heq. vm_compute; reflexivity.
Defined.

(** ** Pairing code and identity *)

Section Exclusive.

Context (env : Env).

Lemma exclusive_same_registry st st' :
  connections st' = connections st → registry_exclusive st → registry_exclusive st'.
Proof. unfold registry_exclusive. by intros ->. Qed.

Lemma exclusive_fresh sock user :
  exclusive {| socket := sock; qr := None; isConnected := false;
               userId := user; phoneNumber := None |}.
Proof. intros [[x Hx] _]. discriminate. Qed.

Lemma exclusive_connectUser user st :
  registry_exclusive st → registry_exclusive (connectUser env user st).1.
Proof.
  intros Hinv. destruct (connectUser_frame env user st) as (_ & _ & _ & [Heq|Heq]).
  - by apply (exclusive_same_registry st).
  - intros u c. rewrite Heq. destruct (decide (user = u)) as [<-|Hne].
    + rewrite lookup_insert_eq. intros [= <-]. apply exclusive_fresh.
    + rewrite lookup_insert_ne by done. apply Hinv.
Qed.

Lemma exclusive_disconnectUser user st :
  registry_exclusive st → registry_exclusive (disconnectUser env user st).1.
Proof.
  intros Hinv u c. unfold disconnectUser. cbn [fst].
  set (st1 := match connections st !! user with Some _ => _ | None => _ end).
  destruct (clearUserSession_frame user (updateSessionStatus env user false None st1))
    as (-> & _).
  destruct (updateSessionStatus_frame env user false None st1) as (-> & _).
  subst st1. destruct (connections st !! user); simpl; [|apply Hinv].
  destruct (decide (user = u)) as [<-|Hne]; [by rewrite lookup_delete_eq|].
  rewrite lookup_delete_ne by done. apply Hinv.
Qed.

Lemma sendMessage_connections user to c st :
  connections (sendMessage env user to c st).1 = connections st.
Proof.
  unfold sendMessage. destruct (connections st !! user) as [conn|]; [|done].
  destruct (isConnected conn); simpl; [|done].
  destruct (socket_sendMessage env _ _ _); simpl; [|done].
  destruct (getUserProfile env user); simpl; [|done].
  unfold saveMessage. by destruct (insert_message_ok env _).
Qed.

Lemma sendBulkLoop_connections user msg delayMs recipients :
  ∀ results st,
    connections (sendBulkLoop env user msg delayMs recipients results st).1 = connections st.
Proof.
  induction recipients as [|r rest IH]; intros results st; simpl; [done|].
  pose proof (sendMessage_connections user r (ContentObject (Some msg) None) st) as Hc.
  destruct (sendMessage env user r (ContentObject (Some msg) None) st) as [st1 result].
  rewrite IH. simpl in Hc. by destruct (0 <? delayMs).
Qed.

Lemma sendBulk_connections req st : connections (sendBulk env req st).1 = connections st.
Proof.
  unfold sendBulk.
  destruct (req_userId req) as [user|]; [|done].
  destruct (body_recipients req) as [recipients|]; [|done].
  destruct (body_message req) as [msg|]; [|done].
  destruct (truthy user && truthy msg)%bool; [|done].
  pose proof (sendBulkLoop_connections user msg (default 1000 (body_delay req)) recipients [] st).
  by destruct (sendBulkLoop env user msg _ recipients [] st).
Qed.

Lemma handleIncomingMessage_connections user m st :
  connections (handleIncomingMessage env user m st) = connections st.
Proof.
  unfold handleIncomingMessage.
  destruct (message m); [|done]. destruct (fromMe (key m)); [done|].
  destruct (extractMessageContent m) as [text|]; [|done].
  destruct (truthy text); simpl; [|done].
  destruct (remoteJid (key m)); [|done].
  destruct (getUserProfile env user); [|done].
  unfold findOrCreatePatient. destruct (patients_ok env _); simpl.
  - destruct (filter _ (patients st)) as [|p [|q l]]; simpl;
      unfold saveMessage; by destruct (insert_message_ok env _).
  - unfold saveMessage. by destruct (insert_message_ok env _).
Qed.

Lemma on_messages_upsert_connections sock msgs st :
  connections (on_messages_upsert env sock msgs st) = connections st.
Proof.
  unfold on_messages_upsert. destruct (handlers st !! sock) as [user|]; [|done].
  revert st. induction msgs as [|m rest IH]; intros st; simpl; [done|].
  by rewrite IH, handleIncomingMessage_connections.
Qed.

Lemma on_messages_update_connections sock upds st :
  connections (on_messages_update env sock upds st) = connections st.
Proof.
  unfold on_messages_update. destruct (handlers st !! sock); [|done].
  revert st. induction upds as [|u rest IH]; intros st; simpl; [done|].
  rewrite IH. unfold handleMessageUpdate.
  destruct (status_truthy _); [|done]. destruct (upd_key_id u); [|done].
  unfold updateMessageStatus. by destruct (update_message_ok env _).
Qed.

(** The registry after the [if (qr)] branch. *)
Lemma update_qr_connections user upd st :
  connections (update_qr env user upd st) = connections st ∨
  (truthy_opt (cs_qr upd) = true ∧
   ∃ code, connections (update_qr env user upd st) =
             alter (with_qr (Some code)) user (connections st)).
Proof.
  unfold update_qr, truthy_opt. destruct (cs_qr upd) as [raw|]; [|by left].
  destruct (truthy raw); [|by left].
  destruct (toDataURL env raw) as [code|]; [|by left].
  right. split; [done|]. by exists code.
Qed.

Lemma exclusive_alter (f : WhatsAppConnection → WhatsAppConnection) user
    (m : gmap string WhatsAppConnection) :
  (∀ u c, m !! u = Some c → exclusive c) →
  (∀ c, m !! user = Some c → exclusive (f c)) →
  ∀ u c, alter f user m !! u = Some c → exclusive c.
Proof.
  intros Hm Hf u c. destruct (decide (user = u)) as [<-|Hne].
  - rewrite lookup_alter_eq. destruct (m !! user) as [c0|] eqn:E; simpl; [|done].
    intros [= <-]. by apply Hf.
  - rewrite lookup_alter_ne by done. apply Hm.
Qed.

Lemma exclusive_delete user (m : gmap string WhatsAppConnection) :
  (∀ u c, m !! u = Some c → exclusive c) →
  ∀ u c, delete user m !! u = Some c → exclusive c.
Proof.
  intros Hm u c. destruct (decide (user = u)) as [<-|Hne].
  - by rewrite lookup_delete_eq.
  - rewrite lookup_delete_ne by done. apply Hm.
Qed.

Lemma exclusive_update_close user upd st :
  registry_exclusive st → registry_exclusive (update_close env user upd st).
Proof.
  intros Hinv. unfold update_close.
  set (st1 := set_connections (alter (with_isConnected false) user) st).
  assert (H1 : registry_exclusive st1).
  { subst st1. intros u c. simpl. apply exclusive_alter; [apply Hinv|].
    intros c0 Hc0. apply (Hinv _ _ Hc0). }
  destruct (updateSessionStatus_frame env user false None st1) as (Hc & _).
  destruct (negb _).
  - intros u c. simpl. rewrite Hc. apply H1.
  - intros u c.
    destruct (clearUserSession_frame user
                (set_connections (delete user)
                   (do_effect (IoEmit (room user) (EmitConnectionStatus false None))
                      (updateSessionStatus env user false None st1)))) as (-> & _).
    simpl. rewrite Hc. by apply exclusive_delete.
Qed.

Lemma update_open_clears user sock st c :
  connections (update_open env user sock st) !! user = Some c →
  qr c = None ∧ isConnected c = true.
Proof.
  unfold update_open.
  match goal with |- context [updateSessionStatus env user true ?p ?s] =>
    destruct (updateSessionStatus_frame env user true p s) as (Hc & _) end.
  simpl. rewrite Hc. simpl. rewrite lookup_alter_eq.
  destruct (connections st !! user); simpl; [|done]. by intros [= <-].
Qed.

Lemma exclusive_update_open user sock st :
  (∀ u c, u ≠ user → connections st !! u = Some c → exclusive c) →
  registry_exclusive (update_open env user sock st).
Proof.
  intros Hinv u c Hlk. destruct (decide (u = user)) as [->|Hne].
  - apply update_open_clears in Hlk as [Hq _]. intros [[x Hx] _]. congruence.
  - revert Hlk. unfold update_open.
    match goal with |- context [updateSessionStatus env user true ?p ?s] =>
      destruct (updateSessionStatus_frame env user true p s) as (Hc & _) end.
    simpl. rewrite Hc. simpl. rewrite lookup_alter_ne by done. by apply Hinv.
Qed.

Lemma exclusive_on_connection_update sock upd st :
  registry_exclusive st →
  qr_expected st (ConnectionUpdate sock upd) = true →
  registry_exclusive (on_connection_update env sock upd st).
Proof.
  intros Hinv Hexp. unfold on_connection_update. simpl in Hexp.
  destruct (handlers st !! sock) as [user|]; [|done].
  destruct (update_qr_connections user upd st) as [Hsame|(Hqr & code & Halt)].
  - assert (H1 : registry_exclusive (update_qr env user upd st))
      by (by apply (exclusive_same_registry st)).
    destruct (connection upd) as [[| |]|]; try done.
    + apply exclusive_update_open. intros u c _. apply H1.
    + by apply exclusive_update_close.
  - destruct (connection upd) as [[| |]|] eqn:Hconn.
    + apply exclusive_update_open. intros u c Hne. rewrite Halt.
      rewrite lookup_alter_ne by done. apply Hinv.
    + unfold brings_qr in Hexp. rewrite Hconn, Hqr in Hexp.
      intros u c. rewrite Halt. apply exclusive_alter; [apply Hinv|].
      intros c0 Hc0. rewrite Hc0 in Hexp. apply bool_decide_eq_true_1 in Hexp.
      intros [_ [x Hx]]. simpl in Hx. congruence.
    + unfold brings_qr in Hexp. rewrite Hconn, Hqr in Hexp.
      apply exclusive_update_close.
      intros u c. rewrite Halt. apply exclusive_alter; [apply Hinv|].
      intros c0 Hc0. rewrite Hc0 in Hexp. apply bool_decide_eq_true_1 in Hexp.
      intros [_ [x Hx]]. simpl in Hx. congruence.
    + unfold brings_qr in Hexp. rewrite Hconn, Hqr in Hexp.
      intros u c. rewrite Halt. apply exclusive_alter; [apply Hinv|].
      intros c0 Hc0. rewrite Hc0 in Hexp. apply bool_decide_eq_true_1 in Hexp.
      intros [_ [x Hx]]. simpl in Hx. congruence.
Qed.

Lemma exclusive_step e st :
  registry_exclusive st → qr_expected st e = true → registry_exclusive (step env st e).
Proof.
  intros Hinv Hexp. destruct e as [user|user|user to c|req|sock upd|sock msgs|sock upds|i]; simpl.
  - by apply exclusive_connectUser.
  - by apply exclusive_disconnectUser.
  - apply (exclusive_same_registry st); [apply sendMessage_connections|done].
  - apply (exclusive_same_registry st); [apply sendBulk_connections|done].
  - by apply exclusive_on_connection_update.
  - apply (exclusive_same_registry st); [apply on_messages_upsert_connections|done].
  - apply (exclusive_same_registry st); [apply on_messages_update_connections|done].
  - unfold on_timer. destruct (timers st !! i) as [[ms user]|]; [|done].
    apply exclusive_connectUser. by apply (exclusive_same_registry st).
Qed.

Lemma exclusive_run es :
  ∀ st, registry_exclusive st → qr_expected_run env es st = true →
        registry_exclusive (run env es st).
Proof.
  induction es as [|e rest IH]; intros st Hinv Hexp; [done|].
  simpl in Hexp. apply andb_prop in Hexp as [He Hrest].
  unfold run. simpl. apply IH; [|done]. by apply exclusive_step.
Qed.

End Exclusive.

(** C5, as the code has it: in every state reached from a new manager by
    public calls, socket events and timers, in which pairing codes came only
    for sessions without an identity, no session has both a pairing code and
    an identity; and whatever the state, the session of the tenant has no
    pairing code and is connected right after an [open] update. *)
Theorem pairing_code_identity_exclusive env dirs sessions msgs pts es :
  qr_expected_run env es (new_manager dirs sessions msgs pts) = true →
  registry_exclusive (run env es (new_manager dirs sessions msgs pts)) ∧
  (∀ st sock user upd c,
     handlers st !! sock = Some user →
     connection upd = Some conn_open →
     connections (on_connection_update env sock upd st) !! user = Some c →
     qr c = None ∧ isConnected c = true).
Proof.
  intros Hexp. split.
  - apply exclusive_run; [|done]. intros u c. simpl. by rewrite lookup_empty.
  - intros st sock user upd c Hh Hopen. unfold on_connection_update. rewrite Hh, Hopen.
    apply update_open_clears.
Qed.

Lemma pairing_code_identity_exclusive_witness :
  registry_exclusive (run env_ok pair_drop_pair boot) ∧
  qr <$> connections (run env_ok pair_drop_pair boot) !! "u1" =
    Some (Some "data:image/png;base64,2@def").
Proof.
  split; [|vm_compute; reflexivity].
  apply (pairing_code_identity_exclusive env_ok ∅ ∅ [] [] pair_drop_pair).
  vm_compute; reflexivity.
Defined.

(** C5, counterexample: u1 asks to connect twice while pairing; the code of
    the first socket is scanned and that socket reports [open], which gives
    the session its identity; the second socket then shows a pairing code,
    and the session holds both. *)
Lemma pairing_code_with_identity :
  connections (run env_ok double_pairing boot) !! "u1" =
    Some {| socket := 1; qr := Some "data:image/png;base64,2@def"; isConnected := true;
            userId := "u1"; phoneNumber := Some "55110:1" |} ∧
  ¬ registry_exclusive (run env_ok double_pairing boot).
Proof.
  assert (Hlk : connections (run env_ok double_pairing boot) !! "u1" =
            Some {| socket := 1; qr := Some "data:image/png;base64,2@def";
                    isConnected := true; userId := "u1";
                    phoneNumber := Some "55110:1" |}) by (vm_compute; reflexivity).
  split; [exact Hlk|]. intros Hinv. apply (Hinv _ _ Hlk). split; by eexists.
Qed.

(** * Further properties of the code *)

(** ** Addresses *)

Lemma includes_at_append a b :
  includes_at (a +:+ b) = (includes_at a || includes_at b)%bool.
Proof.
  induction a as [|ch a IH]; simpl; [done|]. by destruct (Ascii.eqb ch "@").
Qed.

Lemma before_at_no_at a : includes_at a = false → before_at a = a.
Proof.
  induction a as [|ch a IH]; simpl; [done|].
  destruct (Ascii.eqb ch "@"); [done|]. intros Ha. by rewrite IH.
Qed.

Lemma before_at_append a b :
  before_at (a +:+ b) = if includes_at a then before_at a else a +:+ before_at b.
Proof.
  induction a as [|ch a IH]; simpl; [done|].
  destruct (Ascii.eqb ch "@"); [done|]. rewrite IH. by destruct (includes_at a).
Qed.

(** X1: The address handed to the socket always carries an ['@'], normalising
    twice changes nothing, and the number read back from it with
    [split('@')[0]], as the inbound side does, is the one read from the
    destination itself: the destination itself when it had no ['@']. *)
Theorem jidOf_normal to :
  includes_at (jidOf to) = true ∧
  jidOf (jidOf to) = jidOf to ∧
  before_at (jidOf to) = before_at to ∧
  (includes_at to = false → before_at (jidOf to) = to).
Proof.
  unfold jidOf. destruct (includes_at to) eqn:E.
  - rewrite E. done.
  - assert (Hin : includes_at (to +:+ "@s.whatsapp.net") = true).
    { rewrite includes_at_append, E. done. }
    rewrite Hin. split; [done|]. split; [done|].
    assert (Hb : before_at (to +:+ "@s.whatsapp.net") = to).
    { rewrite before_at_append, E. simpl.
      clear. induction to as [|ch to IH]; [done|].
      change (String ch (to +:+ "") = String ch to). by f_equal. }
    split; [|done]. rewrite Hb. by rewrite before_at_no_at.
Qed.

Lemma jidOf_normal_witness : before_at (jidOf "5511999") = "5511999".
Proof.
  destruct (jidOf_normal "5511999") as (_ & _ & _ & Hback). apply Hback. reflexivity.
Defined.

(** ** Single send: the ways it fails *)

(** X2: When the status of the tenant reads not connected (no session, or a
    session that is not connected), [sendMessage] answers "Not connected to
    WhatsApp", calls no socket and changes nothing. *)
Theorem sendMessage_not_connected env user to c st :
  connected (getConnectionStatus user st) = false →
  sendMessage env user to c st =
    (st, {| success := false; messageId := None;
            error := Some "Not connected to WhatsApp" |}).
Proof.
  unfold getConnectionStatus, sendMessage.
  destruct (connections st !! user) as [conn|]; simpl; [|done]. by intros ->.
Qed.

Lemma sendMessage_not_connected_witness :
  sendMessage env_ok "u1" "111" (ContentString "hi") pairing_u1 =
    (pairing_u1, {| success := false; messageId := None;
                    error := Some "Not connected to WhatsApp" |}).
Proof.
  apply (sendMessage_not_connected env_ok "u1" "111" (ContentString "hi") pairing_u1).
  vm_compute; reflexivity.
Defined.

(** X3: Whenever [sendMessage] answers "Failed to send message", the tenant was
    connected, the socket's [sendMessage] had been called, and no record was
    written.  It happens when the socket call throws, and also when the
    socket accepted the message but the store rejected the record: the
    message has then gone out and the caller is told it failed. *)
Theorem sendMessage_failed env user to c st :
  error (sendMessage env user to c st).2 = Some "Failed to send message" →
  ∃ conn,
    connections st !! user = Some conn ∧ isConnected conn = true ∧
    success (sendMessage env user to c st).2 = false ∧
    effects (sendMessage env user to c st).1 =
      effects st ++ [SocketSendMessage (socket conn) (jidOf to) c] ∧
    whatsapp_messages (sendMessage env user to c st).1 = whatsapp_messages st ∧
    (socket_sendMessage env (socket conn) (jidOf to) c = None ∨
     ∃ sentId profile,
       socket_sendMessage env (socket conn) (jidOf to) c = Some sentId ∧
       getUserProfile env user = Some profile ∧
       insert_message_ok env (outbound_record profile to c sentId) = false).
Proof.
  unfold sendMessage, jidOf, outbound_record.
  destruct (connections st !! user) as [conn|]; [|done].
  destruct (isConnected conn) eqn:Hup; simpl; [|done].
  destruct (socket_sendMessage env _ _ _) as [sentId|] eqn:Hsend; simpl.
  - destruct (getUserProfile env user) as [profile|]; simpl; [|done].
    unfold saveMessage. destruct (insert_message_ok env _) eqn:Hins; simpl; [done|].
    intros _. exists conn. repeat (split; [done|]). right. by exists sentId, profile.
  - intros _. exists conn. repeat (split; [done|]). by left.
Qed.

Lemma sendMessage_failed_witness :
  socket_sendMessage env_no_insert 0 (jidOf "111") (ContentString "hi") =
    Some (Some "MSG-111@s.whatsapp.net") ∧
  success (sendMessage env_no_insert "u1" "111" (ContentString "hi") connected_u1).2 = false ∧
  effects (sendMessage env_no_insert "u1" "111" (ContentString "hi") connected_u1).1 =
    effects connected_u1 ++ [SocketSendMessage 0 (jidOf "111") (ContentString "hi")].
Proof.
  destruct (sendMessage_failed env_no_insert "u1" "111" (ContentString "hi") connected_u1)
    as (conn & Hconn & _ & Hfail & Heff & _).
  { vm_compute; reflexivity. }
  assert (Hsock : socket conn = 0%nat).
  { assert (Hlk : connections connected_u1 !! "u1" =
              Some {| socket := 0; qr := None; isConnected := true; userId := "u1";
                      phoneNumber := Some "55110:1" |}) by (vm_compute; reflexivity).
    rewrite Hlk in Hconn. by injection Hconn as <-. }
  rewrite Hsock in Heff. split; [vm_compute; reflexivity|]. by split.
Defined.

(** ** Connect: failure *)

(** X4: [connectUser] answers failure exactly when the tenant is not already
    connected and the engine lets it down: the auth state cannot be loaded,
    a file sits where the tenant's directory should be, or the socket cannot
    be made.  A failed call creates no socket and leaves the registry, the
    listeners, the timers and the store as they were. *)
Theorem connectUser_failure env user st :
  cr_success (connectUser env user st).2 = false →
  (∀ conn, connections st !! user = Some conn → isConnected conn = false) ∧
  (authState_ok env user = false ∨ sessionDirs st !! user = Some false ∨
   makeWASocket_ok env user = false) ∧
  connections (connectUser env user st).1 = connections st ∧
  handlers (connectUser env user st).1 = handlers st ∧
  nextSocket (connectUser env user st).1 = nextSocket st ∧
  effects (connectUser env user st).1 = effects st ∧
  timers (connectUser env user st).1 = timers st ∧
  whatsapp_sessions (connectUser env user st).1 = whatsapp_sessions st ∧
  whatsapp_messages (connectUser env user st).1 = whatsapp_messages st.
Proof.
  unfold connectUser, useMultiFileAuthState.
  destruct (connections st !! user) as [conn|] eqn:E.
  - destruct (isConnected conn) eqn:Hup; simpl; [done|].
    destruct (authState_ok env user); simpl.
    + destruct (sessionDirs st !! user) as [[|]|]; simpl.
      * destruct (makeWASocket_ok env user); simpl; [done|].
        intros _. split; [by intros ? [= <-]|]. by auto 10.
      * intros _. split; [by intros ? [= <-]|]. by auto 10.
      * destruct (makeWASocket_ok env user); simpl; [done|].
        intros _. split; [by intros ? [= <-]|]. by auto 10.
    + intros _. split; [by intros ? [= <-]|]. by auto 10.
  - simpl. destruct (authState_ok env user); simpl.
    + destruct (sessionDirs st !! user) as [[|]|]; simpl.
      * destruct (makeWASocket_ok env user); simpl; [done|].
        intros _. split; [done|]. by auto 10.
      * intros _. split; [done|]. by auto 10.
      * destruct (makeWASocket_ok env user); simpl; [done|].
        intros _. split; [done|]. by auto 10.
    + intros _. split; [done|]. by auto 10.
Qed.

Lemma connectUser_failure_witness :
  connections (connectUser env_c_fails "c" restart).1 = connections restart ∧
  effects (connectUser env_c_fails "c" restart).1 = effects restart.
Proof.
  destruct (connectUser_failure env_c_fails "c" restart) as (_ & _ & Hc & _ & _ & He & _).
  { vm_compute; reflexivity. }
  by split.
Defined.

(** ** Message traffic and sessions *)

Section Traffic.

Context (env : Env).

Lemma sendMessage_session_part user to c st :
  session_part (sendMessage env user to c st).1 = session_part st.
Proof.
  unfold sendMessage, saveMessage, session_part. repeat case_match; by simplify_eq/=.
Qed.

Lemma sendBulkLoop_session_part user msg delayMs recipients :
  ∀ results st,
    session_part (sendBulkLoop env user msg delayMs recipients results st).1 = session_part st.
Proof.
  induction recipients as [|r rest IH]; intros results st; simpl; [done|].
  pose proof (sendMessage_session_part user r (ContentObject (Some msg) None) st) as Hs.
  destruct (sendMessage env user r (ContentObject (Some msg) None) st) as [st1 result].
  rewrite IH. simpl in Hs. by destruct (0 <? delayMs).
Qed.

Lemma sendBulk_session_part req st : session_part (sendBulk env req st).1 = session_part st.
Proof.
  unfold sendBulk.
  destruct (req_userId req) as [user|]; [|done].
  destruct (body_recipients req) as [recipients|]; [|done].
  destruct (body_message req) as [msg|]; [|done].
  destruct (truthy user && truthy msg)%bool; [|done].
  pose proof (sendBulkLoop_session_part user msg (default 1000 (body_delay req)) recipients [] st).
  by destruct (sendBulkLoop env user msg _ recipients [] st).
Qed.

Lemma handleIncomingMessage_session_part user m st :
  session_part (handleIncomingMessage env user m st) = session_part st.
Proof.
  unfold handleIncomingMessage, findOrCreatePatient, saveMessage, session_part.
  repeat case_match; by simplify_eq/=.
Qed.

Lemma on_messages_upsert_session_part sock msgs st :
  session_part (on_messages_upsert env sock msgs st) = session_part st.
Proof.
  unfold on_messages_upsert. destruct (handlers st !! sock) as [user|]; [|done].
  revert st. induction msgs as [|m rest IH]; intros st; simpl; [done|].
  by rewrite IH, handleIncomingMessage_session_part.
Qed.

Lemma on_messages_update_session_part sock upds st :
  session_part (on_messages_update env sock upds st) = session_part st.
Proof.
  unfold on_messages_update. destruct (handlers st !! sock); [|done].
  revert st. induction upds as [|u rest IH]; intros st; simpl; [done|].
  rewrite IH. unfold handleMessageUpdate, updateMessageStatus, session_part.
  repeat case_match; by simplify_eq/=.
Qed.

End Traffic.

(** X5: Message traffic (single sends, bulk sends, inbound messages and status
    updates) never changes a session, a directory, a session row, a
    listener or a timer, and never creates a socket: it only writes message
    and patient rows and the log of calls. *)
Theorem message_traffic_leaves_sessions env e st :
  message_traffic e = true → session_part (step env st e) = session_part st.
Proof.
  destruct e; simpl; try done; intros _.
  - apply sendMessage_session_part.
  - apply sendBulk_session_part.
  - apply on_messages_upsert_session_part.
  - apply on_messages_update_session_part.
Qed.

Lemma message_traffic_leaves_sessions_witness :
  session_part (step env_ok two_tenants (MessagesUpdate 0 [delivery_ack])) =
    session_part two_tenants.
Proof. by apply (message_traffic_leaves_sessions env_ok). Defined.

(** ** Tenants are kept apart *)

Section Isolation.

Context (env : Env).











End Isolation.



(** ** Sockets and listeners *)

Section Sockets.

Context (env : Env).

Lemma keeps_sockets_wf st st' : keeps_sockets st st' → registry_wf st → registry_wf st'.
Proof.
  intros (Hh & Hn & Hc) [Hreg Hlt]. split.
  - intros user c' Hc'. destruct (Hc _ _ Hc') as (c & Hlk & Hs & Hu).
    destruct (Hreg _ _ Hlk) as [Hid Hhand]. rewrite Hs, Hu, Hh. done.
  - intros sock user. rewrite Hh, Hn. apply Hlt.
Qed.

Lemma keeps_sockets_session_part st st' :
  session_part st' = session_part st → keeps_sockets st st'.
Proof.
  unfold session_part. intros [= Hc _ _ Hh Hn _]. split; [done|]. split; [done|].
  intros user c'. rewrite Hc. by eauto.
Qed.

Lemma keeps_sockets_trans st1 st2 st3 :
  keeps_sockets st1 st2 → keeps_sockets st2 st3 → keeps_sockets st1 st3.
Proof.
  intros (Hh & Hn & Hc) (Hh' & Hn' & Hc'). split; [congruence|]. split; [congruence|].
  intros user c3 H3. destruct (Hc' _ _ H3) as (c2 & H2 & Hs & Hu).
  destruct (Hc _ _ H2) as (c1 & H1 & Hs' & Hu'). exists c1. split; [done|]. split; congruence.
Qed.

Lemma keeps_sockets_alter f user st :
  (∀ c, socket (f c) = socket c ∧ userId (f c) = userId c) →
  keeps_sockets st (set_connections (alter f user) st).
Proof.
  intros Hf. split; [done|]. split; [done|]. intros u c'. simpl.
  destruct (decide (user = u)) as [<-|Hne].
  - rewrite lookup_alter_eq. destruct (connections st !! user) as [c|]; simpl; [|done].
    intros [= <-]. exists c. split; [done|]. apply Hf.
  - rewrite lookup_alter_ne by done. by eauto.
Qed.

Lemma keeps_sockets_delete user st : keeps_sockets st (set_connections (delete user) st).
Proof.
  split; [done|]. split; [done|]. intros u c'. simpl.
  destruct (decide (user = u)) as [<-|Hne]; [by rewrite lookup_delete_eq|].
  rewrite lookup_delete_ne by done. by eauto.
Qed.

Lemma keeps_sockets_updateSessionStatus user b p st :
  keeps_sockets st (updateSessionStatus env user b p st).
Proof.
  destruct (updateSessionStatus_frame env user b p st) as (Hc & _ & _ & _ & Hh & Hn & _).
  split; [done|]. split; [done|]. intros u c'. rewrite Hc. by eauto.
Qed.

Lemma keeps_sockets_clearUserSession user st : keeps_sockets st (clearUserSession user st).
Proof.
  destruct (clearUserSession_frame user st) as (Hc & _ & _ & _ & Hh & Hn & _).
  split; [done|]. split; [done|]. intros u c'. rewrite Hc. by eauto.
Qed.

Lemma keeps_sockets_same st st' :
  connections st' = connections st → handlers st' = handlers st →
  nextSocket st' = nextSocket st → keeps_sockets st st'.
Proof. intros Hc Hh Hn. split; [done|]. split; [done|]. intros u c'. rewrite Hc. by eauto. Qed.

Lemma keeps_sockets_disconnectUser user st : keeps_sockets st (disconnectUser env user st).1.
Proof.
  unfold disconnectUser. cbn [fst].
  eapply keeps_sockets_trans; [|apply keeps_sockets_clearUserSession].
  eapply keeps_sockets_trans; [|apply keeps_sockets_updateSessionStatus].
  destruct (connections st !! user); [|by apply keeps_sockets_same].
  eapply keeps_sockets_trans; [|apply keeps_sockets_delete]. by apply keeps_sockets_same.
Qed.

Lemma keeps_sockets_update_qr user upd st : keeps_sockets st (update_qr env user upd st).
Proof.
  unfold update_qr. destruct (cs_qr upd) as [raw|]; [|by apply keeps_sockets_same].
  destruct (truthy raw); [|by apply keeps_sockets_same].
  destruct (toDataURL env raw) as [code|]; [|by apply keeps_sockets_same].
  eapply keeps_sockets_trans; [apply (keeps_sockets_alter (with_qr (Some code)) user); done|].
  by apply keeps_sockets_same.
Qed.

Lemma keeps_sockets_update_close user upd st : keeps_sockets st (update_close env user upd st).
Proof.
  unfold update_close.
  set (st1 := set_connections (alter (with_isConnected false) user) st).
  assert (H1 : keeps_sockets st st1) by (by apply keeps_sockets_alter).
  assert (H2 : keeps_sockets st (updateSessionStatus env user false None st1)).
  { eapply keeps_sockets_trans; [exact H1|apply keeps_sockets_updateSessionStatus]. }
  case_match.
  - eapply keeps_sockets_trans; [exact H2|]. by apply keeps_sockets_same.
  - eapply keeps_sockets_trans; [|apply keeps_sockets_clearUserSession].
    eapply keeps_sockets_trans; [|apply keeps_sockets_delete].
    eapply keeps_sockets_trans; [exact H2|]. by apply keeps_sockets_same.
Qed.

Lemma keeps_sockets_update_open user sock st : keeps_sockets st (update_open env user sock st).
Proof.
  unfold update_open.
  eapply keeps_sockets_trans; [|by apply keeps_sockets_same].
  eapply keeps_sockets_trans; [|apply keeps_sockets_updateSessionStatus].
  by apply keeps_sockets_alter.
Qed.

Lemma keeps_sockets_on_connection_update sock upd st :
  keeps_sockets st (on_connection_update env sock upd st).
Proof.
  unfold on_connection_update. destruct (handlers st !! sock) as [user|];
    [|by apply keeps_sockets_same].
  pose proof (keeps_sockets_update_qr user upd st) as Hq.
  destruct (connection upd) as [[| |]|]; try done.
  - eapply keeps_sockets_trans; [exact Hq|apply keeps_sockets_update_open].
  - eapply keeps_sockets_trans; [exact Hq|apply keeps_sockets_update_close].
Qed.

Lemma connectUser_sockets user st :
  (connections (connectUser env user st).1 = connections st ∧
   handlers (connectUser env user st).1 = handlers st ∧
   nextSocket (connectUser env user st).1 = nextSocket st) ∨
  (connections (connectUser env user st).1 =
     <[user := {| socket := nextSocket st; qr := None; isConnected := false;
                  userId := user; phoneNumber := None |}]> (connections st) ∧
   handlers (connectUser env user st).1 = <[nextSocket st := user]> (handlers st) ∧
   nextSocket (connectUser env user st).1 = S (nextSocket st)).
Proof.
  unfold connectUser, useMultiFileAuthState, setupEventHandlers.
  repeat case_match; simplify_eq/=; auto.
Qed.

Lemma wf_connectUser user st : registry_wf st → registry_wf (connectUser env user st).1.
Proof.
  intros [Hreg Hlt].
  destruct (connectUser_sockets user st) as [(Hc & Hh & Hn)|(Hc & Hh & Hn)].
  { split; [intros u c|intros sock u]; rewrite ?Hc, ?Hh, ?Hn; [apply Hreg|apply Hlt]. }
  split.
  - intros u c. rewrite Hc, Hh. destruct (decide (user = u)) as [<-|Hne].
    + rewrite lookup_insert_eq. intros [= <-]. simpl. by rewrite lookup_insert_eq.
    + rewrite lookup_insert_ne by done. intros Hlk. destruct (Hreg _ _ Hlk) as [Hid Hhand].
      split; [done|]. rewrite lookup_insert_ne; [done|].
      intros Heq. apply Hlt in Hhand. lia.
  - intros sock u. rewrite Hh, Hn. destruct (decide (nextSocket st = sock)) as [<-|Hne].
    + intros _. lia.
    + rewrite lookup_insert_ne by done. intros Hs. apply Hlt in Hs. lia.
Qed.

Lemma wf_step e st : registry_wf st → registry_wf (step env st e).
Proof.
  intros Hwf. destruct e as [user|user|user to c|req|sock upd|sock msgs|sock upds|i]; simpl.
  - by apply wf_connectUser.
  - apply (keeps_sockets_wf st); [apply keeps_sockets_disconnectUser|done].
  - apply (keeps_sockets_wf st); [|done].
    apply keeps_sockets_session_part, sendMessage_session_part.
  - apply (keeps_sockets_wf st); [|done].
    apply keeps_sockets_session_part, sendBulk_session_part.
  - apply (keeps_sockets_wf st); [apply keeps_sockets_on_connection_update|done].
  - apply (keeps_sockets_wf st); [|done].
    apply keeps_sockets_session_part, on_messages_upsert_session_part.
  - apply (keeps_sockets_wf st); [|done].
    apply keeps_sockets_session_part, on_messages_update_session_part.
  - unfold on_timer. destruct (timers st !! i) as [[ms user]|]; [|done].
    apply wf_connectUser. apply (keeps_sockets_wf st); [by apply keeps_sockets_same|done].
Qed.

Lemma wf_run es : ∀ st, registry_wf st → registry_wf (run env es st).
Proof.
  induction es as [|e rest IH]; intros st Hwf; [done|].
  unfold run. simpl. apply IH. by apply wf_step.
Qed.

End Sockets.

(** X7: In every state reached from a new manager, by any calls, events and
    timers: each session is stored under the tenant it names, its socket
    carries the listeners of that tenant, every socket id in use is below
    the next one to be given out (an id is never given twice), and two
    tenants never hold the same socket. *)
Theorem sessions_own_their_sockets env dirs sessions msgs pts es :
  let st := run env es (new_manager dirs sessions msgs pts) in
  registry_wf st ∧
  (∀ u1 u2 c1 c2,
     connections st !! u1 = Some c1 → connections st !! u2 = Some c2 →
     socket c1 = socket c2 → u1 = u2).
Proof.
  intros st.
  assert (Hwf : registry_wf st).
  { apply wf_run. split; intros ? ?; simpl; by rewrite lookup_empty. }
  split; [done|]. intros u1 u2 c1 c2 H1 H2 Hs. destruct Hwf as [Hreg _].
  destruct (Hreg _ _ H1) as [_ Hh1]. destruct (Hreg _ _ H2) as [_ Hh2].
  rewrite Hs in Hh1. congruence.
Qed.

(** Only [connectUser] (called directly or by a timer) creates a socket:
    every other event keeps the listeners and the socket counter, and each
    session it leaves is one that was there, on the same socket. *)
Theorem only_connect_makes_sockets env e st :
  (∀ user, e ≠ Connect user) → (∀ i, e ≠ TimerFires i) →
  keeps_sockets st (step env st e).
Proof.
  intros Hc Ht. destruct e as [user|user|user to c|req|sock upd|sock msgs|sock upds|i]; simpl.
  - by destruct (Hc user).
  - apply keeps_sockets_disconnectUser.
  - apply keeps_sockets_session_part, sendMessage_session_part.
  - apply keeps_sockets_session_part, sendBulk_session_part.
  - apply keeps_sockets_on_connection_update.
  - apply keeps_sockets_session_part, on_messages_upsert_session_part.
  - apply keeps_sockets_session_part, on_messages_update_session_part.
  - by destruct (Ht i).
Qed.

Lemma only_connect_makes_sockets_witness :
  keeps_sockets connected_u1 (step env_ok connected_u1 (ConnectionUpdate 0 (close_update None))).
Proof. by apply (only_connect_makes_sockets env_ok). Defined.

(** ** Session rows *)

Section Rows.

Context (env : Env).

Lemma updateSessionStatus_rows user b p st :
  dom (whatsapp_sessions (updateSessionStatus env user b p st)) = dom (whatsapp_sessions st).
Proof.
  unfold updateSessionStatus. destruct (update_session_ok env user); [|done].
  simpl. apply dom_alter_L.
Qed.

Lemma disconnectUser_rows user st :
  dom (whatsapp_sessions (disconnectUser env user st).1) = dom (whatsapp_sessions st).
Proof.
  unfold disconnectUser. cbn [fst].
  destruct (clearUserSession_frame user
              (updateSessionStatus env user false None
                 match connections st !! user with
                 | Some conn =>
                   set_connections (delete user) (do_effect (SocketEnd (socket conn)) st)
                 | None => st
                 end)) as (_ & -> & _).
  rewrite updateSessionStatus_rows. by destruct (connections st !! user).
Qed.

Lemma on_connection_update_rows sock upd st :
  dom (whatsapp_sessions (on_connection_update env sock upd st)) = dom (whatsapp_sessions st).
Proof.
  unfold on_connection_update. destruct (handlers st !! sock) as [user|]; [|done].
  destruct (update_qr_frame env user upd st) as (_ & Hs & _).
  destruct (connection upd) as [[| |]|]; rewrite <- ?Hs; try done.
  - unfold update_open. simpl. by rewrite updateSessionStatus_rows.
  - unfold update_close. case_match.
    + simpl. by rewrite updateSessionStatus_rows.
    + match goal with |- context [clearUserSession user ?s] =>
        destruct (clearUserSession_frame user s) as (_ & -> & _) end.
      simpl. by rewrite updateSessionStatus_rows.
Qed.

Lemma session_part_rows st st' :
  session_part st' = session_part st → whatsapp_sessions st' = whatsapp_sessions st.
Proof. unfold session_part. by intros [= _ _ -> _ _ _]. Qed.

Lemma step_rows e st :
  dom (whatsapp_sessions (step env st e)) = dom (whatsapp_sessions st).
Proof.
  destruct e as [user|user|user to c|req|sock upd|sock msgs|sock upds|i]; simpl.
  - by destruct (connectUser_frame env user st) as (-> & _).
  - apply disconnectUser_rows.
  - by rewrite (session_part_rows st _ (sendMessage_session_part env user to c st)).
  - by rewrite (session_part_rows st _ (sendBulk_session_part env req st)).
  - apply on_connection_update_rows.
  - by rewrite (session_part_rows st _ (on_messages_upsert_session_part env sock msgs st)).
  - by rewrite (session_part_rows st _ (on_messages_update_session_part env sock upds st)).
  - unfold on_timer. destruct (timers st !! i) as [[ms user]|]; [|done].
    by destruct (connectUser_frame env user (set_timers (delete i) st)) as (-> & _).
Qed.

End Rows.

(** X8: The manager never inserts and never deletes a [whatsapp_sessions] row:
    after any calls, events and timers the tenants that have a row are the
    ones that had one.  In particular a tenant without a row never gets
    one, so [getSession] keeps answering [null] for it. *)
Theorem session_rows_fixed env es st :
  dom (whatsapp_sessions (run env es st)) = dom (whatsapp_sessions st) ∧
  (∀ user, whatsapp_sessions st !! user = None → getSession env user (run env es st) = None).
Proof.
  assert (Hdom : ∀ es st, dom (whatsapp_sessions (run env es st)) = dom (whatsapp_sessions st)).
  { clear. induction es as [|e rest IH]; intros st; [done|].
    unfold run. simpl. fold (run env rest (step env st e)). by rewrite IH, step_rows. }
  split; [apply Hdom|]. intros user Hnone. unfold getSession.
  destruct (select_session_ok env user); [|done].
  apply not_elem_of_dom. rewrite Hdom. by apply not_elem_of_dom.
Qed.

(** ** Message records *)

Section Records.

Context (env : Env).

Lemma with_message_status_same m : with_message_status (message_status m) m = m.
Proof. by destruct m. Qed.

Lemma grows_refl rows : grows rows rows.
Proof. intros i m Hi. exists (message_status m). by rewrite with_message_status_same. Qed.

Lemma grows_trans r1 r2 r3 : grows r1 r2 → grows r2 r3 → grows r1 r3.
Proof.
  intros H12 H23 i m Hi. destruct (H12 _ _ Hi) as (s & Hs).
  destruct (H23 _ _ Hs) as (s' & Hs'). exists s'. by rewrite Hs'.
Qed.

Lemma grows_app rows new : grows rows (rows ++ new).
Proof.
  intros i m Hi. exists (message_status m).
  rewrite with_message_status_same. by apply lookup_app_l_Some.
Qed.

Lemma grows_same st st' :
  whatsapp_messages st' = whatsapp_messages st →
  grows (whatsapp_messages st) (whatsapp_messages st').
Proof. intros ->. apply grows_refl. Qed.

Lemma sendMessage_grows user to c st :
  grows (whatsapp_messages st) (whatsapp_messages (sendMessage env user to c st).1).
Proof.
  unfold sendMessage, saveMessage.
  repeat case_match; simplify_eq/=; (apply grows_refl || apply grows_app).
Qed.

Lemma sendBulkLoop_grows user msg delayMs recipients :
  ∀ results st,
    grows (whatsapp_messages st)
          (whatsapp_messages (sendBulkLoop env user msg delayMs recipients results st).1).
Proof.
  induction recipients as [|r rest IH]; intros results st; simpl; [apply grows_refl|].
  pose proof (sendMessage_grows user r (ContentObject (Some msg) None) st) as Hg.
  destruct (sendMessage env user r (ContentObject (Some msg) None) st) as [st1 result].
  eapply grows_trans; [exact Hg|]. eapply grows_trans; [|apply IH].
  simpl. destruct (0 <? delayMs); apply grows_refl.
Qed.

Lemma handleIncomingMessage_grows user m st :
  grows (whatsapp_messages st) (whatsapp_messages (handleIncomingMessage env user m st)).
Proof.
  unfold handleIncomingMessage, findOrCreatePatient, saveMessage.
  repeat case_match; simplify_eq/=; (apply grows_refl || apply grows_app).
Qed.

Lemma updateMessageStatus_grows id status st :
  grows (whatsapp_messages st) (whatsapp_messages (updateMessageStatus env id status st)).
Proof.
  unfold updateMessageStatus. destruct (update_message_ok env id); [|apply grows_refl].
  intros i m Hi. simpl. rewrite lookup_map, Hi. simpl.
  case_bool_decide; [by eexists|]. exists (message_status m).
  by rewrite with_message_status_same.
Qed.

Lemma connectUser_messages user st :
  whatsapp_messages (connectUser env user st).1 = whatsapp_messages st.
Proof.
  unfold connectUser, useMultiFileAuthState, setupEventHandlers.
  repeat case_match; by simplify_eq/=.
Qed.

Lemma disconnectUser_messages user st :
  whatsapp_messages (disconnectUser env user st).1 = whatsapp_messages st.
Proof.
  unfold disconnectUser, clearUserSession, updateSessionStatus.
  repeat case_match; by simplify_eq/=.
Qed.

Lemma on_connection_update_messages sock upd st :
  whatsapp_messages (on_connection_update env sock upd st) = whatsapp_messages st.
Proof.
  unfold on_connection_update. destruct (handlers st !! sock) as [user|]; [|done].
  destruct (update_qr_frame env user upd st) as (_ & _ & Hm & _).
  destruct (connection upd) as [[| |]|]; rewrite <- ?Hm; try done.
  - unfold update_open, updateSessionStatus. repeat case_match; by simplify_eq/=.
  - unfold update_close, clearUserSession, updateSessionStatus.
    repeat case_match; by simplify_eq/=.
Qed.

Lemma step_grows e st :
  grows (whatsapp_messages st) (whatsapp_messages (step env st e)).
Proof.
  destruct e as [user|user|user to c|req|sock upd|sock msgs|sock upds|i]; simpl.
  - apply grows_same, connectUser_messages.
  - apply grows_same, disconnectUser_messages.
  - apply sendMessage_grows.
  - unfold sendBulk. repeat case_match; simplify_eq/=; try apply grows_refl.
    match goal with H : sendBulkLoop env ?u ?m ?d ?r [] st = _ |- _ =>
      pose proof (sendBulkLoop_grows u m d r [] st) as Hg; by rewrite H in Hg end.
  - apply grows_same, on_connection_update_messages.
  - unfold on_messages_upsert. destruct (handlers st !! sock) as [user|]; [|apply grows_refl].
    revert st. induction msgs as [|m rest IH]; intros st; simpl; [apply grows_refl|].
    eapply grows_trans; [apply handleIncomingMessage_grows|apply IH].
  - unfold on_messages_update. destruct (handlers st !! sock); [|apply grows_refl].
    revert st. induction upds as [|u rest IH]; intros st; simpl; [apply grows_refl|].
    eapply grows_trans; [|apply IH]. unfold handleMessageUpdate.
    repeat case_match; try apply grows_refl. apply updateMessageStatus_grows.
  - unfold on_timer. destruct (timers st !! i) as [[ms user]|]; [|apply grows_refl].
    apply grows_same. by rewrite connectUser_messages.
Qed.

End Records.

(** X9: Message records are never deleted and never rewritten, except for their
    delivery status: after any calls, events and timers every record that
    was in the store is still at its place, with the same tenant scope,
    counterpart, direction, content and protocol id. *)
Theorem message_records_kept env es st i m :
  whatsapp_messages st !! i = Some m →
  ∃ status, whatsapp_messages (run env es st) !! i = Some (with_message_status status m).
Proof.
  revert st m. induction es as [|e rest IH]; intros st m Hi.
  - exists (message_status m). by rewrite with_message_status_same.
  - destruct (step_grows env e st i m Hi) as (s1 & H1).
    destruct (IH (step env st e) _ H1) as (s2 & H2).
    exists s2. unfold run. simpl. fold (run env rest (step env st e)). by rewrite H2.
Qed.

Lemma message_records_kept_witness :
  ∃ status,
    whatsapp_messages
      (run env_ok [MessagesUpdate 0 [delivery_ack]; Disconnect "u1"; Connect "u1"] two_tenants)
      !! 1%nat =
    Some (with_message_status status
            {| clinic_id := "clinic-u2"; patient_id := Some "patient-0"; phone := "55110";
               message_type := inbound; content := "hello"; message_status := "delivered";
               whatsapp_message_id := Some "MSG-55111@s.whatsapp.net" |}).
Proof.
  apply (message_records_kept env_ok _ two_tenants 1%nat). vm_compute; reflexivity.
Defined.

(** ** What the status reads after an event *)

Section Status.

Context (env : Env).

Lemma update_qr_keeps_session user upd st :
  is_Some (connections st !! user) → is_Some (connections (update_qr env user upd st) !! user).
Proof.
  intros Hs. destruct (update_qr_connections env user upd st) as [->|(_ & code & ->)]; [done|].
  rewrite lookup_alter_eq. destruct Hs as [c ->]. by eexists.
Qed.

Lemma update_open_status user sock st :
  is_Some (connections st !! user) →
  getConnectionStatus user (update_open env user sock st) =
    {| connected := true; st_phoneNumber := before_at <$> socket_user env sock;
       st_qr := None |}.
Proof.
  intros [c Hc]. unfold getConnectionStatus, update_open.
  match goal with |- context [updateSessionStatus env user true ?p ?s] =>
    destruct (updateSessionStatus_frame env user true p s) as (Hconn & _) end.
  simpl. rewrite Hconn. simpl. rewrite lookup_alter_eq, Hc. done.
Qed.

(** What [updateSessionStatus] leaves in the row of the tenant. *)
Lemma updateSessionStatus_row user b p st :
  whatsapp_sessions (updateSessionStatus env user b p st) !! user =
    if update_session_ok env user
    then (λ row, {| user_id := user_id row; is_connected := b;
                    phone_number := if truthy_opt p then p else phone_number row |})
           <$> whatsapp_sessions st !! user
    else whatsapp_sessions st !! user.
Proof.
  unfold updateSessionStatus. destruct (update_session_ok env user); [|done].
  simpl. by rewrite lookup_alter_eq.
Qed.

(** A connect that goes through: what it builds. *)
Lemma connectUser_builds user st :
  (∀ conn, connections st !! user = Some conn → isConnected conn = false) →
  authState_ok env user = true → makeWASocket_ok env user = true →
  sessionDirs st !! user ≠ Some false →
  connections (connectUser env user st).1 =
    <[user := {| socket := nextSocket st; qr := None; isConnected := false;
                 userId := user; phoneNumber := None |}]> (connections st) ∧
  handlers (connectUser env user st).1 = <[nextSocket st := user]> (handlers st) ∧
  nextSocket (connectUser env user st).1 = S (nextSocket st) ∧
  effects (connectUser env user st).1 = effects st ++ [SocketCreated user (nextSocket st)] ∧
  timers (connectUser env user st).1 = timers st ∧
  sessionDirs (connectUser env user st).1 !! user = Some true.
Proof.
  intros Hdown Hauth Hsock Hdir. unfold connectUser, useMultiFileAuthState, setupEventHandlers.
  rewrite Hauth, Hsock.
  destruct (connections st !! user) as [conn|]; [rewrite (Hdown conn eq_refl)|]; simpl.
  - destruct (sessionDirs st !! user) as [[|]|] eqn:E; simpl; try done.
    by rewrite lookup_insert_eq.
  - destruct (sessionDirs st !! user) as [[|]|] eqn:E; simpl; try done.
    by rewrite lookup_insert_eq.
Qed.

Lemma update_close_retry user code st :
  code ≠ Some loggedOut →
  connections (update_close env user (close_update code) st) =
    alter (with_isConnected false) user (connections st) ∧
  sessionDirs (update_close env user (close_update code) st) = sessionDirs st ∧
  handlers (update_close env user (close_update code) st) = handlers st ∧
  nextSocket (update_close env user (close_update code) st) = nextSocket st ∧
  effects (update_close env user (close_update code) st) =
    effects st ++ [IoEmit (room user) (EmitConnectionStatus false None)] ∧
  timers (update_close env user (close_update code) st) = timers st ++ [(5000, user)].
Proof.
  intros Hcode. unfold update_close. simpl. rewrite bool_decide_eq_false_2 by done. simpl.
  match goal with |- context [updateSessionStatus env user false None ?s] =>
    destruct (updateSessionStatus_frame env user false None s)
      as (-> & -> & _ & -> & -> & -> & ->) end.
  done.
Qed.

End Status.

(** X10: After a socket of the tenant reports [open], the status of a tenant
    that has a session reads connected, with no pairing code, and with the
    identity of the socket that raised the event: the part of its user id
    before ['@'], or none when the socket has no user. *)
Theorem open_event_status env sock user upd st :
  handlers st !! sock = Some user →
  is_Some (connections st !! user) →
  connection upd = Some conn_open →
  getConnectionStatus user (on_connection_update env sock upd st) =
    {| connected := true; st_phoneNumber := before_at <$> socket_user env sock;
       st_qr := None |}.
Proof.
  intros Hh Hs Hopen. unfold on_connection_update. rewrite Hh, Hopen.
  apply update_open_status. by apply update_qr_keeps_session.
Qed.

Lemma open_event_status_witness :
  getConnectionStatus "u1" (on_connection_update env_ok 0 open_update pairing_u1) =
    {| connected := true; st_phoneNumber := Some "55110:1"; st_qr := None |}.
Proof.
  apply (open_event_status env_ok 0%nat "u1" open_update pairing_u1);
    [vm_compute; reflexivity | by eexists | reflexivity].
Defined.

(** X11: A pairing code that renders is stored in the tenant's session, shows
    in its status beside the unchanged connected flag and identity, and is
    emitted once to the tenant's room; when the renderer rejects, the event
    changes nothing at all. *)
Theorem qr_event_status env sock user raw c st :
  handlers st !! sock = Some user →
  connections st !! user = Some c →
  truthy raw = true →
  match toDataURL env raw with
  | Some code =>
    getConnectionStatus user (on_connection_update env sock (qr_update raw) st) =
      {| connected := isConnected c; st_phoneNumber := phoneNumber c; st_qr := Some code |} ∧
    effects (on_connection_update env sock (qr_update raw) st) =
      effects st ++ [IoEmit (room user) (EmitQr code)]
  | None => on_connection_update env sock (qr_update raw) st = st
  end.
Proof.
  intros Hh Hc Hraw. unfold on_connection_update, update_qr, getConnectionStatus.
  rewrite Hh. simpl. rewrite Hraw. destruct (toDataURL env raw) as [code|]; [|done].
  simpl. by rewrite lookup_alter_eq, Hc.
Qed.

Lemma qr_event_status_witness :
  on_connection_update env_no_qr 0 (qr_update "2@abc") connected_u1 = connected_u1.
Proof.
  pose proof (qr_event_status env_no_qr 0%nat "u1" "2@abc"
                {| socket := 0; qr := None; isConnected := true; userId := "u1";
                   phoneNumber := Some "55110:1" |} connected_u1) as H.
  apply H; vm_compute; reflexivity.
Defined.

(** X12: The session row follows the events when the store takes the update: an
    [open] update sets it connected and writes the identity when there is
    one (the stored number stays otherwise); a [close] update, whatever its
    reason, sets it not connected and keeps the stored number.  When the
    store rejects the update the row keeps what it had. *)
Theorem session_row_follows_events env sock user upd row st :
  handlers st !! sock = Some user →
  whatsapp_sessions st !! user = Some row →
  let identity := before_at <$> socket_user env sock in
  whatsapp_sessions (on_connection_update env sock upd st) !! user =
    match connection upd with
    | Some conn_open =>
      Some (if update_session_ok env user
            then {| user_id := user_id row; is_connected := true;
                    phone_number := if truthy_opt identity then identity
                                    else phone_number row |}
            else row)
    | Some conn_close =>
      Some (if update_session_ok env user
            then {| user_id := user_id row; is_connected := false;
                    phone_number := phone_number row |}
            else row)
    | _ => Some row
    end.
Proof.
  intros Hh Hrow identity. unfold on_connection_update. rewrite Hh.
  destruct (update_qr_frame env user upd st) as (_ & Hs & _).
  destruct (connection upd) as [[| |]|]; try by rewrite Hs.
  - unfold update_open. simpl. rewrite updateSessionStatus_row. simpl. rewrite Hs, Hrow.
    by destruct (update_session_ok env user).
  - unfold update_close.
    assert (Hgoal : whatsapp_sessions
              (updateSessionStatus env user false None
                 (set_connections (alter (with_isConnected false) user)
                    (update_qr env user upd st))) !! user =
            Some (if update_session_ok env user
                  then {| user_id := user_id row; is_connected := false;
                          phone_number := phone_number row |} else row)).
    { rewrite updateSessionStatus_row. simpl. rewrite Hs, Hrow.
      by destruct (update_session_ok env user). }
    destruct (negb (bool_decide (lastDisconnect_statusCode upd = Some loggedOut)));
      [exact Hgoal|].
    match goal with |- context [clearUserSession user ?s] =>
      destruct (clearUserSession_frame user s) as (_ & -> & _) end.
    exact Hgoal.
Qed.

Lemma session_row_follows_events_witness :
  whatsapp_sessions (on_connection_update env_ok 0 (close_update (Some 428)) connected_with_row)
    !! "u1" =
  Some {| user_id := "u1"; is_connected := false; phone_number := Some "55110:1" |}.
Proof.
  apply (session_row_follows_events env_ok 0%nat "u1" (close_update (Some 428))
           {| user_id := "u1"; is_connected := true; phone_number := Some "55110:1" |}
           connected_with_row); vm_compute; reflexivity.
Defined.

(** X13: After a [close] with any reason but logged-out, the status reads not
    connected; when the timer it set fires and the engine answers, the
    tenant has a new session on a new socket, not connected and with no
    identity or pairing code, the timers are the ones there were before the
    close, nothing was called on the old socket, and the listeners of the
    old socket are still attached. *)
Theorem reconnect_after_close env sock user code c st :
  handlers st !! sock = Some user →
  connections st !! user = Some c →
  code ≠ Some loggedOut →
  authState_ok env user = true → makeWASocket_ok env user = true →
  sessionDirs st !! user ≠ Some false →
  let st1 := on_connection_update env sock (close_update code) st in
  let st2 := on_timer env (length (timers st)) st1 in
  connected (getConnectionStatus user st1) = false ∧
  timers st2 = timers st ∧
  connections st2 !! user =
    Some {| socket := nextSocket st; qr := None; isConnected := false;
            userId := user; phoneNumber := None |} ∧
  effects st2 = effects st ++ [IoEmit (room user) (EmitConnectionStatus false None);
                               SocketCreated user (nextSocket st)] ∧
  handlers st2 = <[nextSocket st := user]> (handlers st).
Proof.
  intros Hh Hc Hcode Hauth Hsock Hdir st1 st2.
  assert (Hst1 : st1 = update_close env user (close_update code) st).
  { subst st1. unfold on_connection_update. by rewrite Hh. }
  destruct (update_close_retry env user code st Hcode) as (Hc1 & Hd1 & Hh1 & Hn1 & He1 & Ht1).
  rewrite <- Hst1 in *.
  assert (Hlk1 : connections st1 !! user = Some (with_isConnected false c)).
  { by rewrite Hc1, lookup_alter_eq, Hc. }
  split; [unfold getConnectionStatus; by rewrite Hlk1|].
  assert (Htimer : timers st1 !! length (timers st) = Some (5000, user)).
  { rewrite Ht1. by rewrite list_lookup_middle. }
  subst st2. unfold on_timer. rewrite Htimer.
  destruct (connectUser_builds env user (set_timers (delete (length (timers st))) st1))
    as (Hc2 & Hh2 & Hn2 & He2 & Ht2 & _); simpl; try done.
  { intros conn. rewrite Hlk1. by intros [= <-]. }
  { by rewrite Hd1. }
  simpl in *. rewrite Hc2, Hh2, He2, Ht2, Hn1, Hh1, He1, Ht1.
  split; [by rewrite delete_middle, app_nil_r|].
  split; [by rewrite lookup_insert_eq|]. split; [by rewrite <- app_assoc|done].
Qed.

Lemma reconnect_after_close_witness :
  connections (on_timer env_ok 0 (on_connection_update env_ok 0 (close_update (Some 428))
                                   connected_u1)) !! "u1" =
    Some {| socket := 1; qr := None; isConnected := false; userId := "u1";
            phoneNumber := None |}.
Proof.
  destruct (reconnect_after_close env_ok 0%nat "u1" (Some 428)
              {| socket := 0; qr := None; isConnected := true; userId := "u1";
                 phoneNumber := Some "55110:1" |} connected_u1)
    as (_ & _ & Hc & _);
    [vm_compute; reflexivity | vm_compute; reflexivity | discriminate | reflexivity
    | reflexivity | vm_compute; discriminate |].
  exact Hc.
Defined.

(** ** Inbound messages and patients *)

Lemma extractMessageContent_truthy m text :
  extractMessageContent m = Some text → truthy text = true.
Proof.
  unfold extractMessageContent. destruct (message m) as [msg|]; [|done].
  repeat case_match; try done; intros Heq; rewrite Heq in *; done.
Qed.

Lemma filter_none {A} (P : A → Prop) `{∀ x, Decision (P x)} (l : list A) :
  (∀ x, x ∈ l → ¬ P x) → filter P l = [].
Proof.
  induction l as [|x l IH]; intros Hno; [done|].
  rewrite filter_cons, decide_False by (apply Hno, elem_of_cons; by left).
  apply IH. intros y Hy. apply Hno, elem_of_cons. by right.
Qed.

(** X14: When no patient of the clinic has the number, [findOrCreatePatient]
    adds exactly one patient: an active lead of that clinic whose phone is
    the digits of the number.  From then on every call for that clinic with
    a number that has the same digits, however it is written and whatever
    the name, finds that patient and adds nothing. *)
Theorem findOrCreatePatient_once env phoneNum clinicId name st :
  patients_ok env (digits_only phoneNum) = true →
  (∀ p, p ∈ patients st →
        ¬ (pt_phone p = digits_only phoneNum ∧ pt_clinic_id p = clinicId)) →
  ∃ created,
    findOrCreatePatient env phoneNum clinicId name st =
      (set_patients (λ rows, rows ++ [created]) st, Some created) ∧
    pt_phone created = digits_only phoneNum ∧ pt_clinic_id created = clinicId ∧
    pt_status created = "active" ∧ pt_conversion_stage created = "lead" ∧
    ∀ phoneNum' name',
      digits_only phoneNum' = digits_only phoneNum →
      findOrCreatePatient env phoneNum' clinicId name'
        (set_patients (λ rows, rows ++ [created]) st) =
      (set_patients (λ rows, rows ++ [created]) st, Some created).
Proof.
  intros Hok Hnone. unfold findOrCreatePatient at 1. rewrite Hok. simpl.
  rewrite (filter_none _ _ Hnone). eexists. split; [done|]. simpl.
  repeat (split; [done|]). intros phoneNum' name' Hsame.
  unfold findOrCreatePatient. rewrite Hsame, Hok. simpl.
  rewrite filter_app, (filter_none _ _ Hnone), filter_cons, decide_True by done. done.
Qed.

Lemma findOrCreatePatient_once_witness :
  ∃ created,
    findOrCreatePatient env_ok "+55 (11) 9999-0000" "clinic-u1" (Some "Ana") boot =
      (set_patients (λ rows, rows ++ [created]) boot, Some created) ∧
    pt_phone created = "551199990000" ∧
    findOrCreatePatient env_ok "5511 99990000" "clinic-u1" None
      (set_patients (λ rows, rows ++ [created]) boot) =
      (set_patients (λ rows, rows ++ [created]) boot, Some created).
Proof.
  destruct (findOrCreatePatient_once env_ok "+55 (11) 9999-0000" "clinic-u1" (Some "Ana") boot)
    as (created & Hfirst & Hphone & _ & _ & _ & Hagain).
  { reflexivity. }
  { intros p Hp. by apply elem_of_nil in Hp. }
  exists created. split; [exact Hfirst|]. split; [exact Hphone|].
  apply Hagain. vm_compute; reflexivity.
Defined.

(** X15: An inbound message from someone else that carries text, for a tenant
    whose profile resolves and with a store that takes inserts, writes
    exactly one record: inbound, delivered, under the profile's clinic, from
    the number before ['@'] in the sender's address, with the text and the
    protocol id of the message; and it emits one [new-message] to the
    tenant's room.  No session, directory, row, listener or timer changes. *)
Theorem handleIncomingMessage_persists env user m text from profile st :
  fromMe (key m) = false →
  extractMessageContent m = Some text →
  remoteJid (key m) = Some from →
  getUserProfile env user = Some profile →
  (∀ record, insert_message_ok env record = true) →
  let st' := handleIncomingMessage env user m st in
  let name := if truthy_opt (pushName m) then default "" (pushName m) else before_at from in
  (∃ patient,
     whatsapp_messages st' =
       whatsapp_messages st ++
         [{| clinic_id := pr_id profile; patient_id := patient; phone := before_at from;
             message_type := inbound; content := text; message_status := "delivered";
             whatsapp_message_id := key_id (key m) |}]) ∧
  effects st' =
    effects st ++ [IoEmit (room user)
                     (EmitNewMessage (before_at from) text name (messageTimestamp m))] ∧
  session_part st' = session_part st.
Proof.
  intros Hme Htext Hfrom Hprofile Hins st' name.
  split; [|split; [|apply handleIncomingMessage_session_part]]; subst st' name;
    unfold handleIncomingMessage; rewrite Htext, Hme, Hfrom, Hprofile,
      (extractMessageContent_truthy m text Htext);
    (destruct (message m) as [msg|] eqn:Hmsg;
       [|unfold extractMessageContent in Htext; by rewrite Hmsg in Htext]); simpl.
  - destruct (findOrCreatePatient env _ _ _ st) as [st1 patient] eqn:Hp.
    assert (Hm1 : whatsapp_messages st1 = whatsapp_messages st).
    { revert Hp. unfold findOrCreatePatient. repeat case_match; by intros [= <- _]. }
    unfold saveMessage. rewrite Hins. simpl. rewrite Hm1. by eexists.
  - destruct (findOrCreatePatient env _ _ _ st) as [st1 patient] eqn:Hp.
    assert (He1 : effects st1 = effects st).
    { revert Hp. unfold findOrCreatePatient. repeat case_match; by intros [= <- _]. }
    unfold saveMessage. rewrite Hins. simpl. by rewrite He1.
Qed.

Lemma handleIncomingMessage_persists_witness :
  ∃ patient,
    whatsapp_messages (handleIncomingMessage env_ok "u1" (text_message (Some "ID-1") "oi")
                         connected_u1) =
      [{| clinic_id := "clinic-u1"; patient_id := patient; phone := "5533";
          message_type := inbound; content := "oi"; message_status := "delivered";
          whatsapp_message_id := Some "ID-1" |}].
Proof.
  destruct (handleIncomingMessage_persists env_ok "u1" (text_message (Some "ID-1") "oi") "oi"
              "5533@s.whatsapp.net"
              {| pr_id := "clinic-u1"; pr_user_id := "u1" |} connected_u1)
    as ((patient & Hrec) & _); try reflexivity.
  exists patient. exact Hrec.
Defined.

(** X16: A message the tenant sent itself, a message with no sender address, and
    any message for a tenant whose profile does not resolve are dropped:
    nothing is written, no patient is created, nothing is emitted. *)
Theorem handleIncomingMessage_ignored env user m st :
  fromMe (key m) = true ∨ remoteJid (key m) = None ∨ getUserProfile env user = None →
  handleIncomingMessage env user m st = st.
Proof.
  intros Hwhy. unfold handleIncomingMessage.
  destruct (message m); [|done]. destruct (fromMe (key m)) eqn:Hme; [done|].
  destruct (extractMessageContent m) as [text|]; [|done].
  destruct (truthy text); simpl; [|done].
  destruct (remoteJid (key m)) eqn:Hfrom; [|done].
  destruct (getUserProfile env user) eqn:Hprofile; [|done].
  by destruct Hwhy as [?|[?|?]].
Qed.

Lemma handleIncomingMessage_ignored_witness :
  handleIncomingMessage env_no_profile "u1" (text_message (Some "ID-1") "oi") connected_u1 =
    connected_u1.
Proof.
  apply (handleIncomingMessage_ignored env_no_profile). right. right. reflexivity.
Defined.

(** ** Routes *)

(** X17: [POST /api/send-bulk] answers 400 exactly when the authenticated user id
    is missing or empty, [recipients] is missing or not an array, or
    [message] is missing or empty, and then leaves the manager unchanged.
    An empty array of recipients passes: the answer is success with zero
    sent, zero failed and no result, and nothing is called. *)
Theorem sendBulk_validation env req st :
  let valid := (truthy_opt (req_userId req) &&
                bool_decide (is_Some (body_recipients req)) &&
                truthy_opt (body_message req))%bool in
  (valid = false → sendBulk env req st = (st, BadRequest)) ∧
  (valid = true → (sendBulk env req st).2 ≠ BadRequest) ∧
  (valid = true → body_recipients req = Some [] → sendBulk env req st = (st, BulkOk 0 0 [])).
Proof.
  unfold sendBulk, truthy_opt.
  destruct (req_userId req) as [user|]; [|done].
  destruct (body_recipients req) as [recipients|].
  - rewrite bool_decide_eq_true_2 by (by eexists).
    destruct (body_message req) as [msg|]; [|by destruct (truthy user)].
    destruct (truthy user), (truthy msg); try done. simpl.
    split; [done|]. split.
    + intros _. by destruct (sendBulkLoop env user msg _ recipients [] st).
    + by intros _ [= ->].
  - rewrite bool_decide_eq_false_2 by (by intros [? ?]).
    destruct (truthy user); by destruct (body_message req).
Qed.

Lemma sendBulk_validation_witness :
  sendBulk env_ok {| req_userId := Some "u1"; body_recipients := None;
                     body_message := Some "hi"; body_delay := None |} connected_u1 =
    (connected_u1, BadRequest) ∧
  sendBulk env_ok {| req_userId := Some "u1"; body_recipients := Some [];
                     body_message := Some "hi"; body_delay := None |} connected_u1 =
    (connected_u1, BulkOk 0 0 []).
Proof.
  split.
  - by apply (sendBulk_validation env_ok).
  - by apply (sendBulk_validation env_ok).
Defined.

(** X18: [connectUser] never answers with a pairing code: its [qr] is always
    absent, also through [POST /api/connect]; and right after a connect
    that built a socket the status of the tenant reads not connected, with
    no pairing code and no identity.  The code reaches a client only
    through the [qr] event or a later status request. *)
Theorem connect_answers_no_qr env user st :
  cr_qr (connectUser env user st).2 = None ∧
  (truthy user = true →
   route_connect env (Some user) st =
     ((connectUser env user st).1, Http200 (connectUser env user st).2)) ∧
  (cr_message (connectUser env user st).2 = Some "Connection initiated" →
   getConnectionStatus user (connectUser env user st).1 =
     {| connected := false; st_phoneNumber := None; st_qr := None |}).
Proof.
  split; [|split].
  - unfold connectUser. by repeat case_match.
  - intros Hu. unfold route_connect. rewrite Hu. by destruct (connectUser env user st).
  - unfold connectUser, useMultiFileAuthState, setupEventHandlers, getConnectionStatus.
    repeat case_match; simplify_eq/=; try done;
      rewrite lookup_insert_eq in *; by simplify_eq.
Qed.

Lemma connect_answers_no_qr_witness :
  getConnectionStatus "u1" (connectUser env_ok "u1" boot).1 =
    {| connected := false; st_phoneNumber := None; st_qr := None |}.
Proof.
  destruct (connect_answers_no_qr env_ok "u1" boot) as (_ & _ & Hstatus).
  apply Hstatus. vm_compute; reflexivity.
Defined.

(** X19: [POST /api/disconnect] with a non-empty user id always answers 200 with
    success, whether or not the tenant had a session, and a status request
    for that tenant then reads not connected with no identity and no
    pairing code; with a missing or empty user id it answers 400 and
    changes nothing. *)
Theorem disconnect_then_status env user st :
  (truthy user = true →
   (route_disconnect env (Some user) st).2 = Http200 true ∧
   route_status user (route_disconnect env (Some user) st).1 =
     Http200 {| connected := false; st_phoneNumber := None; st_qr := None |}) ∧
  (truthy user = false →
   route_disconnect env (Some user) st = (st, Http400 "User ID required")) ∧
  route_disconnect env None st = (st, Http400 "User ID required").
Proof.
  split; [|split; [|done]].
  - intros Hu. unfold route_disconnect, route_status. rewrite Hu.
    destruct (disconnectUser_shape env user st) as (Hok & Hgone & _).
    destruct (disconnectUser env user st) as [st1 ok]. simpl in *. subst ok.
    split; [done|]. unfold getConnectionStatus. by rewrite Hgone.
  - intros Hu. unfold route_disconnect. by rewrite Hu.
Qed.

Lemma disconnect_then_status_witness :
  route_status "u1" (route_disconnect env_ok (Some "u1") connected_u1).1 =
    Http200 {| connected := false; st_phoneNumber := None; st_qr := None |}.
Proof.
  destruct (disconnect_then_status env_ok "u1" connected_u1) as (Hgood & _).
  by apply Hgood.
Defined.

(** X20: The list of [GET /api/connections] has one entry per session of the
    registry: [total] is the number of sessions, no tenant is listed twice,
    and a tenant is listed with a connected flag and a number exactly when
    the status of that tenant reads them. *)
Theorem connections_list_matches_status st :
  (route_connections st).1 = size (connections st) ∧
  (route_connections st).1 = length (route_connections st).2 ∧
  NoDup (sum_userId <$> (route_connections st).2) ∧
  (∀ entry, entry ∈ (route_connections st).2 ↔
     is_Some (connections st !! sum_userId entry) ∧
     connected (getConnectionStatus (sum_userId entry) st) = sum_connected entry ∧
     st_phoneNumber (getConnectionStatus (sum_userId entry) st) = sum_phoneNumber entry).
Proof.
  unfold route_connections. cbn [fst snd].
  split; [by rewrite length_fmap, length_map_to_list|]. split; [done|]. split.
  - rewrite <- list_fmap_compose.
    assert (Heq : (sum_userId ∘ (λ entry : string * WhatsAppConnection,
                     {| sum_userId := entry.1; sum_connected := isConnected entry.2;
                        sum_phoneNumber := phoneNumber entry.2 |})) <$>
                  map_to_list (connections st) = (map_to_list (connections st)).*1).
    { by apply list_fmap_ext. }
    rewrite Heq. apply NoDup_fst_map_to_list.
  - intros entry. rewrite list_elem_of_fmap. unfold getConnectionStatus. split.
    + intros ([u c] & -> & Hin). apply elem_of_map_to_list in Hin. simpl.
      rewrite Hin. by split; [eexists|].
    + intros ([c Hc] & Hconn & Hphone). rewrite Hc in Hconn, Hphone. simpl in *.
      exists (sum_userId entry, c). split; [|by apply elem_of_map_to_list].
      destruct entry. simpl in *. by subst.
Qed.

(** ** Authentication: the token of a request *)

Lemma split_space_nonempty s : split_space s ≠ [].
Proof.
  destruct s as [|c r]; simpl; [done|].
  destruct (Ascii.eqb c " "); [done|]. by destruct (split_space r).
Qed.

Lemma split_space_no_space s : has_space s = false → split_space s = [s].
Proof.
  induction s as [|c r IH]; simpl; [done|].
  destruct (Ascii.eqb c " "); [done|]. intros Hr. by rewrite IH.
Qed.

Lemma split_space_one s p : split_space s = [p] → s = p ∧ has_space p = false.
Proof.
  revert p. induction s as [|c r IH]; intros p; simpl.
  - by intros [= <-].
  - destruct (Ascii.eqb c " ") eqn:Hc.
    + intros [= _ Hnil]. by apply split_space_nonempty in Hnil.
    + destruct (split_space r) as [|part parts] eqn:Hr;
        [by apply split_space_nonempty in Hr|].
      intros [= <- ->]. destruct (IH part eq_refl) as [-> Hno]. simpl. by rewrite Hc.
Qed.

Lemma split_space_two s p0 p1 :
  split_space s = [p0; p1] →
  s = p0 +:+ String " " p1 ∧ has_space p0 = false ∧ has_space p1 = false.
Proof.
  revert p0. induction s as [|c r IH]; intros p0; simpl; [done|].
  destruct (Ascii.eqb c " ") eqn:Hc.
  - intros [= <- Hr]. apply Ascii.eqb_eq in Hc as ->.
    by destruct (split_space_one r p1 Hr) as [-> Hno].
  - destruct (split_space r) as [|part parts] eqn:Hr; [done|].
    intros [= <- ->]. destruct (IH part eq_refl) as (-> & Hno0 & Hno1).
    split; [done|]. simpl. by rewrite Hc.
Qed.

Lemma split_space_append a r :
  has_space a = false → split_space (a +:+ String " " r) = a :: split_space r.
Proof.
  induction a as [|c a IH]; intros Hno.
  - done.
  - simpl in Hno. change (String c a +:+ String " " r) with (String c (a +:+ String " " r)).
    simpl. destruct (Ascii.eqb c " "); [done|]. by rewrite IH.
Qed.

(** X21: A header ["Bearer <token>"] whose token has no space gives that token,
    whatever the cookie and the query say; and when a request has neither
    cookie nor query token, that is the only way it carries a token: a
    header with another scheme, with a second space, or with a space in the
    token carries none. *)
Theorem extractToken_bearer req token :
  (hdr_authorization req = Some ("Bearer " +:+ token) → has_space token = false →
   extractToken req = Some token) ∧
  (cookie_access_token req = None → query_token req = None →
   extractToken req = Some token →
   hdr_authorization req = Some ("Bearer " +:+ token) ∧ has_space token = false).
Proof.
  unfold extractToken. split.
  - intros -> Hno.
    assert (Hsplit : split_space ("Bearer " +:+ token) = ["Bearer"; token]).
    { change ("Bearer " +:+ token) with ("Bearer" +:+ String " " token).
      rewrite split_space_append by done. by rewrite split_space_no_space. }
    assert (Htruthy : truthy ("Bearer " +:+ token) = true) by done.
    rewrite Htruthy, Hsplit. by rewrite bool_decide_eq_true_2.
  - intros -> ->. simpl. destruct (hdr_authorization req) as [h|]; [|done].
    destruct (truthy h); [|done].
    destruct (split_space h) as [|p0 [|p1 [|p2 l]]] eqn:Hsplit; try done.
    case_bool_decide as Hscheme; [|done]. intros [= <-].
    destruct (split_space_two h p0 p1 Hsplit) as (-> & _ & Hno). by subst p0.
Qed.

Lemma extractToken_bearer_witness :
  extractToken {| hdr_authorization := Some "Bearer abc.def"; cookie_access_token := Some "other";
                  query_token := None; req_ip := None; hdr_forwarded_for := None |} =
    Some "abc.def".
Proof.
  by apply (extractToken_bearer
              {| hdr_authorization := Some "Bearer abc.def";
                 cookie_access_token := Some "other"; query_token := None;
                 req_ip := None; hdr_forwarded_for := None |} "abc.def").
Defined.

(** X22: A request from which no token, or an empty one, is extracted is
    answered 401 MISSING_TOKEN; it is not counted by the rate limiter and
    Supabase is not asked.  A header ["Bearer "] with nothing after the
    space is such a request even when a cookie carries a token, because the
    header is read first. *)
Theorem authenticate_missing_token aenv now req s :
  truthy_opt (extractToken req) = false ∨ hdr_authorization req = Some "Bearer " →
  authenticate aenv now req s =
    (s, AuthRejected 401 "Authentication required" "MISSING_TOKEN").
Proof.
  intros [Hfalsy|Hheader]; unfold authenticate.
  - destruct (extractToken req) as [token|]; [|done]. simpl in Hfalsy. by rewrite Hfalsy.
  - assert (Hempty : extractToken req = Some "").
    { by apply (extractToken_bearer req ""). }
    by rewrite Hempty.
Qed.

Lemma authenticate_missing_token_witness :
  authenticate aenv_one_user 1000
    {| hdr_authorization := Some "Bearer "; cookie_access_token := Some "good";
       query_token := None; req_ip := None; hdr_forwarded_for := None |} auth_start =
    (auth_start, AuthRejected 401 "Authentication required" "MISSING_TOKEN").
Proof. apply authenticate_missing_token. by right. Defined.

(** ** Authentication: rate limit *)

Lemma rate_answers_window req resetTime times :
  ∀ count store,
    store !! rate_identifier req = Some {| rl_count := count; rl_resetTime := resetTime |} →
    Forall (λ t, t ≤ resetTime) times →
    rate_answers times req store =
      replicate (min (length times) (60 - count)) true ++
      replicate (length times - (60 - count)) false.
Proof.
  induction times as [|t rest IH]; intros count store Hlk Htimes; [done|].
  apply Forall_cons in Htimes as [Ht Hrest].
  cbn [rate_answers]. unfold checkRateLimit. rewrite Hlk. cbn [rl_resetTime rl_count].
  rewrite (proj2 (Z.ltb_ge resetTime t)) by done. unfold maxRequestsPerMinute.
  destruct (60 <=? count)%nat eqn:Hfull.
  - apply Nat.leb_le in Hfull. rewrite (IH count store Hlk Hrest).
    replace (60 - count)%nat with 0%nat by lia. simpl.
    by rewrite Nat.min_0_r, Nat.sub_0_r.
  - apply Nat.leb_gt in Hfull.
    rewrite (IH (S count) _ (lookup_insert_eq _ _ _) Hrest).
    replace (60 - count)%nat with (S (60 - S count)) by lia. simpl.
    done.
Qed.

(** X23: A first request of an identifier (none seen before, or the last window
    is over) opens a window of one minute.  Of the requests made by that
    identifier until the window ends, that first one included, exactly the
    first 60 are let through, however they are spread over the minute. *)
Theorem rate_limit_window now req times store :
  (∀ limit, store !! rate_identifier req = Some limit → rl_resetTime limit < now) →
  Forall (λ t, t ≤ now + 60 * 1000) times →
  rate_answers (now :: times) req store =
    replicate (min (S (length times)) 60) true ++
    replicate (S (length times) - 60) false.
Proof.
  intros Hold Htimes. cbn [rate_answers].
  assert (Hfirst : checkRateLimit now req store =
            (<[rate_identifier req := {| rl_count := 1; rl_resetTime := now + 60 * 1000 |}]>
               store, true)).
  { unfold checkRateLimit. destruct (store !! rate_identifier req) as [limit|] eqn:E; [|done].
    by rewrite (proj2 (Z.ltb_lt _ _) (Hold limit eq_refl)). }
  rewrite Hfirst.
  rewrite (rate_answers_window req (now + 60 * 1000) times 1 _ (lookup_insert_eq _ _ _) Htimes).
  replace (60 - 1)%nat with 59%nat by done.
  destruct (decide (length times ≤ 59)%nat) as [Hle|Hgt].
  - replace (min (length times) 59) with (length times) by lia.
    replace (min (S (length times)) 60) with (S (length times)) by lia.
    replace (length times - 59)%nat with 0%nat by lia.
    replace (S (length times) - 60)%nat with 0%nat by lia. done.
  - replace (min (length times) 59) with 59%nat by lia.
    replace (min (S (length times)) 60) with 60%nat by lia.
    replace (S (length times) - 60)%nat with (length times - 59)%nat by lia. done.
Qed.

Lemma rate_limit_window_witness :
  rate_answers (0 :: replicate 61 30000) (bearer_request "Bearer good") ∅ =
    replicate 60 true ++ replicate 2 false.
Proof.
  apply (rate_limit_window 0 (bearer_request "Bearer good") (replicate 61 30000) ∅).
  - intros limit Hlk. by rewrite lookup_empty in Hlk.
  - apply Forall_replicate. done.
Defined.

(** ** Authentication: validation and its cache *)

(** X24: A request passes [authenticate] only with the token it carries, only
    when the rate limiter let it through, and only when that token is in
    the cache and not yet expired, or Supabase accepts it now; the user id
    attached is the id of that user.  It passes [requireAdmin] only if it
    passes [authenticate] and the profile of that user has role admin. *)
Theorem authenticate_passes_only_valid aenv now req s s' uid user access :
  (authenticate aenv now req s = (s', AuthPassed uid user access) →
   extractToken req = Some access ∧ uid = au_id user ∧
   (checkRateLimit now req (rateLimitStore s)).2 = true ∧
   ((∃ cached, sessionCache s !! access = Some cached ∧ now < expiresAt cached ∧
               cached_user cached = user) ∨
    supabase_getUser aenv access = GetUserOk user)) ∧
  (requireAdmin aenv now req s = (s', AuthPassed uid user access) →
   authenticate aenv now req s = (s', AuthPassed uid user access) ∧
   profile_role aenv uid = Some "admin").
Proof.
  split.
  - unfold authenticate. destruct (extractToken req) as [token|]; [|done].
    destruct (truthy token); simpl; [|done].
    destruct (checkRateLimit now req (rateLimitStore s)) as [store allowed].
    destruct allowed; simpl; [|done].
    unfold validateToken.
    destruct (sessionCache s !! token) as [cached|] eqn:Hc.
    + destruct (now <? expiresAt cached) eqn:Hfresh.
      * intros [= <- <- <- <-]. apply Z.ltb_lt in Hfresh.
        split; [done|]. split; [done|]. split; [done|]. left. by exists cached.
      * destruct (supabase_getUser aenv token) as [|message|u] eqn:Hget; simpl.
        -- done.
        -- repeat case_match; by simplify_eq/=.
        -- intros [= <- <- <- <-]. by auto.
    + destruct (supabase_getUser aenv token) as [|message|u] eqn:Hget; simpl.
      * done.
      * repeat case_match; by simplify_eq/=.
      * intros [= <- <- <- <-]. by auto.
  - unfold requireAdmin.
    destruct (authenticate aenv now req s) as [s1 [status err code|uid1 user1 access1]];
      [done|].
    case_bool_decide as Hrole; [|done]. by intros [= <- <- <- <-].
Qed.

Lemma authenticate_passes_only_valid_witness :
  extractToken (bearer_request "Bearer good") = Some "good" ∧
  supabase_getUser aenv_one_user "good" = GetUserOk {| au_id := "u1" |}.
Proof.
  destruct (authenticate_passes_only_valid aenv_one_user 1000 (bearer_request "Bearer good")
              auth_start (authenticate aenv_one_user 1000 (bearer_request "Bearer good")
                            auth_start).1
              "u1" {| au_id := "u1" |} "good") as [Hauth _].
  destruct Hauth as (Htoken & _ & _ & [(cached & Hc & _)|Hget]).
  - vm_compute; reflexivity.
  - vm_compute in Hc. discriminate.
  - by split.
Defined.

(** X25: Once a token has been validated, it is in the cache with an expiry
    later than now, and until that expiry every validation of it answers
    valid with the same user without asking Supabase: whatever Supabase
    would answer by then, also for a token revoked in the meantime.  The
    expiry of a token that was not cached is five minutes after the
    validation. *)
Theorem validated_token_stays_valid aenv now token cache cache' user access :
  validateToken aenv now token cache = (cache', TokenValid user access) →
  ∃ cached,
    cache' !! token = Some cached ∧ cached_user cached = user ∧ access = token ∧
    now < expiresAt cached ∧
    (cache !! token = None → expiresAt cached = now + 5 * 60 * 1000) ∧
    ∀ aenv' now', now' < expiresAt cached →
      validateToken aenv' now' token cache' = (cache', TokenValid user token).
Proof.
  intros Hvalid.
  assert (Hhit : ∀ cached, cache' !! token = Some cached → cached_user cached = user →
            ∀ aenv' now', now' < expiresAt cached →
              validateToken aenv' now' token cache' = (cache', TokenValid user token)).
  { intros cached Hc Hu aenv' now' Hnow. unfold validateToken. rewrite Hc.
    rewrite (proj2 (Z.ltb_lt _ _) Hnow). by rewrite Hu. }
  unfold validateToken in Hvalid.
  destruct (cache !! token) as [cached|] eqn:Hc.
  - destruct (now <? expiresAt cached) eqn:Hfresh.
    + injection Hvalid as <- <- <-. apply Z.ltb_lt in Hfresh. exists cached.
      repeat (split; [done|]). by apply Hhit.
    + destruct (supabase_getUser aenv token) as [|message|u]; simpl in Hvalid;
        [done|repeat case_match; by simplify_eq/=|].
      injection Hvalid as <- <- <-.
      exists {| cached_user := u; expiresAt := now + 5 * 60 * 1000 |}.
      split; [apply lookup_insert_eq|]. simpl. split; [done|]. split; [done|].
      split; [lia|]. split; [done|]. intros aenv' now' Hnow'.
      by apply (Hhit _ (lookup_insert_eq _ _ _)).
  - destruct (supabase_getUser aenv token) as [|message|u]; simpl in Hvalid;
      [done|repeat case_match; by simplify_eq/=|].
    injection Hvalid as <- <- <-.
    exists {| cached_user := u; expiresAt := now + 5 * 60 * 1000 |}.
    split; [apply lookup_insert_eq|]. simpl. split; [done|]. split; [done|].
    split; [lia|]. split; [done|]. intros aenv' now' Hnow'.
    by apply (Hhit _ (lookup_insert_eq _ _ _)).
Qed.

Lemma validated_token_stays_valid_witness :
  validateToken aenv_revoked 300999 "good"
    (validateToken aenv_one_user 1000 "good" ∅).1 =
    ((validateToken aenv_one_user 1000 "good" ∅).1, TokenValid {| au_id := "u1" |} "good").
Proof.
  destruct (validated_token_stays_valid aenv_one_user 1000 "good" ∅
              (validateToken aenv_one_user 1000 "good" ∅).1 {| au_id := "u1" |} "good")
    as (cached & _ & _ & _ & _ & Hexp & Hstays).
  { vm_compute; reflexivity. }
  apply Hstays. rewrite Hexp by done. lia.
Defined.

(** X26: [clearExpiredSessions] keeps exactly the entries that have not expired
    before now, and it never changes what a validation, now or later,
    answers. *)
Theorem clearExpiredSessions_transparent aenv now now' token cache :
  (∀ t cached, clearExpiredSessions now cache !! t = Some cached ↔
               cache !! t = Some cached ∧ now ≤ expiresAt cached) ∧
  (now ≤ now' →
   (validateToken aenv now' token (clearExpiredSessions now cache)).2 =
   (validateToken aenv now' token cache).2).
Proof.
  assert (Hkeep : ∀ t cached, clearExpiredSessions now cache !! t = Some cached ↔
                    cache !! t = Some cached ∧ now ≤ expiresAt cached).
  { intros t cached. unfold clearExpiredSessions. rewrite map_lookup_filter_Some. simpl.
    split; intros [? ?]; split; try done; lia. }
  split; [done|]. intros Hlater. unfold validateToken.
  destruct (cache !! token) as [cached|] eqn:Hc.
  - destruct (decide (now ≤ expiresAt cached)) as [Hlive|Hdead].
    + rewrite (proj2 (Hkeep token cached) (conj Hc Hlive)).
      repeat case_match; by simplify_eq/=.
    + assert (Hgone : clearExpiredSessions now cache !! token = None).
      { destruct (clearExpiredSessions now cache !! token) as [c|] eqn:E; [|done].
        apply Hkeep in E as [E1 E2]. rewrite Hc in E1. injection E1 as <-. lia. }
      rewrite Hgone. rewrite (proj2 (Z.ltb_ge _ _)) by lia.
      repeat case_match; by simplify_eq/=.
  - assert (Hgone : clearExpiredSessions now cache !! token = None).
    { destruct (clearExpiredSessions now cache !! token) as [c|] eqn:E; [|done].
      apply Hkeep in E as [E1 _]. congruence. }
    rewrite Hgone. repeat case_match; by simplify_eq/=.
Qed.

Lemma clearExpiredSessions_transparent_witness :
  (validateToken aenv_revoked 2000 "good"
     (clearExpiredSessions 1500 (validateToken aenv_one_user 1000 "good" ∅).1)).2 =
  (validateToken aenv_revoked 2000 "good" (validateToken aenv_one_user 1000 "good" ∅).1).2.
Proof.
  apply (clearExpiredSessions_transparent aenv_revoked 1500 2000 "good"). lia.
Defined.

(** X27: [logout] forgets the token of the request and no other, and leaves the
    rate limiter alone; the next validation of that token asks Supabase, so
    a token Supabase no longer accepts is rejected at once instead of
    living on in the cache. *)
Theorem logout_forgets_token aenv req token s :
  extractToken req = Some token → truthy token = true →
  sessionCache (logout aenv req s).1 !! token = None ∧
  (∀ other, other ≠ token →
            sessionCache (logout aenv req s).1 !! other = sessionCache s !! other) ∧
  rateLimitStore (logout aenv req s).1 = rateLimitStore s ∧
  ∀ aenv' now,
    (∀ user, supabase_getUser aenv' token ≠ GetUserOk user) →
    ∃ err code,
      validateToken aenv' now token (sessionCache (logout aenv req s).1) =
        (sessionCache (logout aenv req s).1, TokenInvalid err code).
Proof.
  intros Htoken Htruthy. unfold logout. rewrite Htoken, Htruthy. simpl.
  split; [apply lookup_delete_eq|]. split; [intros other Hne; by apply lookup_delete_ne|].
  split; [done|]. intros aenv' now Hrevoked. unfold validateToken.
  rewrite lookup_delete_eq.
  destruct (supabase_getUser aenv' token) as [|message|user] eqn:Hget.
  - by eexists _, _.
  - case_match; by eexists _, _.
  - by destruct (Hrevoked user).
Qed.

Lemma logout_forgets_token_witness :
  ∃ err code,
    validateToken aenv_revoked 2000 "good"
      (sessionCache (logout aenv_one_user (bearer_request "Bearer good")
                       (authenticate aenv_one_user 1000 (bearer_request "Bearer good")
                          auth_start).1).1) =
    (sessionCache (logout aenv_one_user (bearer_request "Bearer good")
                     (authenticate aenv_one_user 1000 (bearer_request "Bearer good")
                        auth_start).1).1, TokenInvalid err code).
Proof.
  destruct (logout_forgets_token aenv_one_user (bearer_request "Bearer good") "good"
              (authenticate aenv_one_user 1000 (bearer_request "Bearer good") auth_start).1)
    as (_ & _ & _ & Hnext); [vm_compute; reflexivity | reflexivity |].
  apply Hnext. intros user. discriminate.
Defined.

(** ** Metrics *)

Lemma recordHistogram_fold name labels values :
  ∀ old histograms,
    histograms !! buildKey name labels = Some old →
    (length old ≤ 1000)%nat →
    foldl (λ acc v, recordHistogram name v labels acc) histograms values
      !! buildKey name labels =
    Some (drop (length (old ++ values) - 1000) (old ++ values)).
Proof.
  induction values as [|v rest IH]; intros old histograms Hold Hlen; simpl.
  - rewrite Hold, app_nil_r. by replace (length old - 1000)%nat with 0%nat by lia.
  - set (kept := if (1000 <? length (old ++ [v]))%nat
                 then drop (length (old ++ [v]) - 1000) (old ++ [v]) else old ++ [v]).
    assert (Hkept : kept = drop (length (old ++ [v]) - 1000) (old ++ [v])).
    { subst kept. destruct (1000 <? length (old ++ [v]))%nat eqn:E; [done|].
      apply Nat.ltb_ge in E. by replace (length (old ++ [v]) - 1000)%nat with 0%nat by lia. }
    assert (Hstep : recordHistogram name v labels histograms =
                    <[buildKey name labels := kept]> histograms).
    { unfold recordHistogram. by rewrite Hold. }
    rewrite Hstep. rewrite (IH kept); [|apply lookup_insert_eq|].
    + f_equal. rewrite Hkept. rewrite length_app, length_drop, !length_app. simpl.
      rewrite <- drop_app_le by (rewrite length_app; simpl; lia).
      rewrite drop_drop. rewrite <- app_assoc. simpl. f_equal. lia.
    + rewrite Hkept, length_drop, length_app. simpl. lia.
Qed.

Lemma recordHistogram_other name labels v key histograms :
  key ≠ buildKey name labels →
  recordHistogram name v labels histograms !! key = histograms !! key.
Proof. intros Hne. unfold recordHistogram. by rewrite lookup_insert_ne. Qed.

(** X28: Recording values under a metric that had none keeps, in order, the last
    1000 of them (all of them while there are at most 1000), so a histogram
    never holds more than 1000 values; histograms under other keys are not
    touched. *)
Theorem histogram_keeps_last_1000 name labels values histograms :
  histograms !! buildKey name labels = None →
  values ≠ [] →
  let recorded := foldl (λ acc v, recordHistogram name v labels acc) histograms values in
  recorded !! buildKey name labels = Some (drop (length values - 1000) values) ∧
  (∀ kept, recorded !! buildKey name labels = Some kept → (length kept ≤ 1000)%nat) ∧
  (∀ key, key ≠ buildKey name labels → recorded !! key = histograms !! key).
Proof.
  intros Hnone Hvalues recorded.
  assert (Hlast : recorded !! buildKey name labels =
                  Some (drop (length values - 1000) values)).
  { subst recorded. destruct values as [|v rest]; [done|]. simpl.
    assert (Hstep : recordHistogram name v labels histograms =
                    <[buildKey name labels := [v]]> histograms).
    { unfold recordHistogram. by rewrite Hnone. }
    rewrite Hstep. by rewrite (recordHistogram_fold name labels rest [v] _
                                 (lookup_insert_eq _ _ _)) by (simpl; lia). }
  split; [done|]. split.
  - intros kept. rewrite Hlast. intros [= <-]. rewrite length_drop. lia.
  - intros key Hne. subst recorded. clear Hnone Hvalues Hlast. revert histograms.
    induction values as [|v rest IH]; intros histograms; simpl; [done|].
    by rewrite IH, recordHistogram_other.
Qed.

Lemma histogram_keeps_last_1000_witness :
  foldl (λ acc v, recordHistogram "http_request_duration_ms" v None acc) ∅ (Z.of_nat <$> seq 0 1002)
    !! "http_request_duration_ms" =
  Some (Z.of_nat <$> seq 2 1000).
Proof.
  destruct (histogram_keeps_last_1000 "http_request_duration_ms" None
              (Z.of_nat <$> seq 0 1002) ∅) as (Hlast & _); [done | done |].
  etrans; [exact Hlast|]. vm_compute; reflexivity.
Defined.

(** ** Status updates that are dropped *)



(** ** Disconnecting twice *)

(** X30: A second [disconnectUser] for the same tenant right after the first
    answers success again and changes nothing more. *)
Theorem disconnectUser_twice env user st :
  disconnectUser env user (disconnectUser env user st).1 =
    ((disconnectUser env user st).1, true).
Proof.
  destruct (disconnectUser_shape env user st) as (_ & Hgone & Hdir & _).
  unfold disconnectUser at 1. rewrite Hgone. f_equal.
  unfold clearUserSession at 1.
  assert (Hdir' : sessionDirs (updateSessionStatus env user false None
                                 (disconnectUser env user st).1) !! user = None).
  { by destruct (updateSessionStatus_frame env user false None (disconnectUser env user st).1)
      as (_ & -> & _). }
  rewrite Hdir'. unfold disconnectUser. cbn [fst].
  unfold clearUserSession, updateSessionStatus.
  destruct st. simpl. repeat case_match; simplify_eq/=; try done;
    unfold set_whatsapp_sessions, set_sessionDirs, set_connections, do_effect; simpl;
    f_equal; rewrite alter_alter_eq; apply alter_ext; by intros [? ? ?] _.
Qed.
